(** * whitelistPy: the guild command router of [main.py]

    A shallow embedding of [WhitelistClient] (src/main.py): the guild
    store [self.data], the command handlers and [on_message], in an
    exception-and-state monad over the client's observable state.

    Conventions of the embedding.
    - A Python [str] is a Rocq [string]; a character is a code point
      below 256, and texts with other characters are not represented.  On
      that range the digits [\d] accepts are [0-9] (the decimal digits of
      other scripts, which [\d] accepts too, lie above it) and the white
      space of [str.split()] is the set listed in [isspace].
    - Discord identifiers are Python ints ([Z]); the keys of [self.data]
      and of a guild's ['data'] dict are [str(id)].
    - [self.data] is a [gmap] from [str(guild.id)] to the guild's record; a
      guild's ['data'] dict keeps Python's insertion order (an association
      list), which [get_data] writes out row by row.
    - What the client does to the outside is recorded in its state: the
      replies [sent], [data_json] (the content of data.json), [log_txt]
      and [stdout].
    - The code is embedded twice.  First as it runs when every
      [message.reply] is delivered and every file operation succeeds: the
      statements about a message that is answered are made there.  Then,
      in module [IO], line for line the same code in a world that decides
      which replies and file operations raise ([Failure]); what is said
      of every execution (persistence, faults, the log) is proved there
      for every world, and [calm_on_message] relates the two.
    - [validate_eth], [validate_sol] (module [validator]),
      [traceback.format_exc] and [str(message)] are not part of main.py:
      they are variables of the section. *)

From Stdlib Require Import ZArith String Ascii List Bool Lia.
From stdpp Require Import base option list strings pretty gmap fin_maps.

Local Open Scope string_scope.
Local Open Scope Z_scope.

(** ** Python strings *)

Module Py.

Definition nl : string := String (ascii_of_nat 10) "".

(** [str(n)] for an int. *)
Definition str (n : Z) : string := pretty n.

(** [s.startswith(p)] *)
Definition startswith (p s : string) : bool := String.prefix p s.

(** White space as [str.split()] sees it, for code points below 256:
    9-13, 28-32, 0x85 and 0xA0. *)
Definition isspace (c : ascii) : bool :=
  let n := nat_of_ascii c in
  ((9 <=? n) && (n <=? 13) || (28 <=? n) && (n <=? 32)
   || (n =? 133) || (n =? 160))%nat.

(** [\d] on a character of this embedding, a code point below 256: there
    the decimal digits (Unicode category Nd) are [0-9].  The digits of
    other scripts, which [\d] of module [regex] accepts as well, have
    higher code points and are outside the strings represented here. *)
Definition isdigit (c : ascii) : bool :=
  let n := nat_of_ascii c in ((48 <=? n) && (n <=? 57))%nat.

Fixpoint split_from (tok : string) (s : string) : list string :=
  match s with
  | EmptyString =>
      match tok with
      | EmptyString => []
      | _ => [String.rev tok]
      end
  | String c s' =>
      if isspace c then
        match tok with
        | EmptyString => split_from "" s'
        | _ => String.rev tok :: split_from "" s'
        end
      else split_from (String c tok) s'
  end.

(** [s.split()]: the maximal runs of non-space characters. *)
Definition split (s : string) : list string := split_from "" s.

(** [s[1:]] *)
Definition drop_first (s : string) : string :=
  match s with
  | EmptyString => ""
  | String _ s' => s'
  end.

(** [s[:-1]] *)
Fixpoint drop_last (s : string) : string :=
  match s with
  | EmptyString => ""
  | String c EmptyString => ""
  | String c s' => String c (drop_last s')
  end.

(** [s[-n:]] for [n > 0]: the last [n] characters, the whole string when
    it is shorter. *)
Definition suffix (n : nat) (s : string) : string :=
  String.substring (String.length s - n) n s.

(** [s.replace(c, r)] for a one-character [c]. *)
Fixpoint replace (c : ascii) (r : string) (s : string) : string :=
  match s with
  | EmptyString => ""
  | String d s' =>
      (if Ascii.eqb c d then r else String d "") ++ replace c r s'
  end.

(** [repr(s)] of a string holding neither quote nor backslash nor
    control character, as the command names are. *)
Definition repr (s : string) : string := "'" ++ s ++ "'".

(** [", ".join(l)] *)
Fixpoint join_comma (l : list string) : string :=
  match l with
  | [] => ""
  | [x] => x
  | x :: l' => x ++ ", " ++ join_comma l'
  end.

(** [str(l)] of a list of such strings. *)
Definition str_list (l : list string) : string :=
  "[" ++ join_comma (map repr l) ++ "]".

(** The f-string rendering of an optional int ([None] or a number). *)
Definition fmt_opt_int (o : option Z) : string :=
  match o with
  | Some n => str n
  | None => "None"
  end.

Definition fmt_opt_str (o : option string) : string :=
  match o with
  | Some s => s
  | None => "None"
  end.

(** [d+] followed by [close] and the end of the string. *)
Fixpoint digits_then (close : ascii) (seen : bool) (s : string) : bool :=
  match s with
  | EmptyString => false
  | String c s' =>
      if isdigit c then digits_then close true s'
      else seen && Ascii.eqb c close &&
           match s' with EmptyString => true | _ => false end
  end.

Fixpoint strip_prefix (p s : string) : option string :=
  match p, s with
  | EmptyString, _ => Some s
  | String a p', String b s' =>
      if Ascii.eqb a b then strip_prefix p' s' else None
  | String _ _, EmptyString => None
  end.

(** [re.compile(lead + "\d+>$").fullmatch(s)]: the whole of [s] is [lead],
    one or more digits and [>]; under [fullmatch] the final [$] adds
    nothing. *)
Definition fullmatch_mention (lead : string) (s : string) : bool :=
  match strip_prefix lead s with
  | Some rest => digits_then ">" false rest
  | None => false
  end.

(** A dict with string keys in insertion order. *)
Section Dict.
Context {V : Type}.

Fixpoint get (k : string) (d : list (string * V)) : option V :=
  match d with
  | [] => None
  | (k', v) :: d' => if String.eqb k k' then Some v else get k d'
  end.

(** [d[k] = v]: an existing key keeps its place, a new one goes last. *)
Fixpoint set (k : string) (v : V) (d : list (string * V))
  : list (string * V) :=
  match d with
  | [] => [(k, v)]
  | (k', v') :: d' =>
      if String.eqb k k' then (k, v) :: d' else (k', v') :: set k v d'
  end.

(** [k in d] *)
Definition mem (k : string) (d : list (string * V)) : bool :=
  match get k d with Some _ => true | None => false end.
End Dict.

End Py.

(** ** Data model *)

(** One value of [self.data]: a copy of [GUILD_TEMPLATE] with its four
    keys. *)
Record Guild := mkGuild {
  whitelist_channel : option Z;
  whitelist_role : option Z;
  blockchain : option string;
  data : list (string * string)
}.

Definition GUILD_TEMPLATE : Guild :=
  {| whitelist_channel := None; whitelist_role := None;
     blockchain := None; data := [] |}.

Definition VALID_BLOCKCHAINS : list string := ["eth"; "sol"].

(** [message.author]: [is_member] is [isinstance(author, Member)]; the
    remaining fields are read only behind that test. *)
Record Author := mkAuthor {
  author_id : Z;
  bot : bool;
  is_member : bool;
  administrator : bool;
  roles : list Z
}.

(** What the handlers read of a [discord.Message]: mentions and roles are
    kept as the ids the code reads off them. *)
Record Message := mkMessage {
  author : Author;
  content : string;
  channel_id : Z;
  guild_id : Z;
  guild_name : string;
  channel_mentions : list Z;
  role_mentions : list Z
}.

(** The payload of one [message.reply(...)]. *)
Inductive Reply :=
| Text (text : string) (mention_author : option bool)
| Embed (title description : string) (fields : list (string * string))
        (mention_author : option bool)
| File (text file_name file_content : string).

(** The client with what it writes: [self.data], data.json, log.txt, the
    replies sent and the lines printed. *)
Record Client := mkClient {
  self_data : gmap string Guild;
  data_json : option (gmap string Guild);
  log_txt : list string;
  sent : list Reply;
  stdout : list string
}.

(** The exceptions of the handlers; [Failure] stands for what a call
    into discord.py or the file system raises ([HTTPException],
    [OSError]). *)
Inductive exn :=
| InvalidCommand
| KeyError (key : option string)
| IndexError
| Failure (what : string).

Inductive result (A : Type) :=
| Ok (a : A)
| Raise (e : exn).
Arguments Ok {A} a.
Arguments Raise {A} e.

(** A computation on the client that returns or raises; what it changed
    before raising stays changed. *)
Definition M (A : Type) : Type := Client -> result A * Client.

Definition ret {A} (a : A) : M A := fun s => (Ok a, s).

Definition raise {A} (e : exn) : M A := fun s => (Raise e, s).

Definition bind {A B} (c : M A) (k : A -> M B) : M B :=
  fun s =>
    match c s with
    | (Ok a, s') => k a s'
    | (Raise e, s') => (Raise e, s')
    end.

Notation "x <- c ;; k" := (bind c (fun x => k))
  (at level 100, c at next level, right associativity).
Notation "c ;; k" := (bind c (fun _ => k))
  (at level 100, right associativity).

(** [try: c  except InvalidCommand: h] *)
Definition try_except_InvalidCommand {A} (c h : M A) : M A :=
  fun s =>
    match c s with
    | (Raise InvalidCommand, s') => h s'
    | r => r
    end.

Definition modify (f : Client -> Client) : M unit := fun s => (Ok tt, f s).

Definition set_self_data (d : gmap string Guild) (s : Client) : Client :=
  {| self_data := d; data_json := data_json s; log_txt := log_txt s;
     sent := sent s; stdout := stdout s |}.

(** [await message.reply(...)], delivered.  The reply that raises is
    [IO.reply]. *)
Definition reply (r : Reply) : M unit :=
  modify (fun s =>
    {| self_data := self_data s; data_json := data_json s;
       log_txt := log_txt s; sent := sent s ++ [r]; stdout := stdout s |}).

(** [print(line)] *)
Definition print (line : string) : M unit :=
  modify (fun s =>
    {| self_data := self_data s; data_json := data_json s;
       log_txt := log_txt s; sent := sent s; stdout := stdout s ++ [line] |}).

(** [self.data[str(gid)]]: a [KeyError] when the guild has no entry. *)
Definition get_guild (gid : Z) : M Guild :=
  fun s =>
    match self_data s !! Py.str gid with
    | Some g => (Ok g, s)
    | None => (Raise (KeyError (Some (Py.str gid))), s)
    end.

(** [self.data[str(gid)] = g] *)
Definition put_guild (gid : Z) (g : Guild) : M unit :=
  modify (fun s => set_self_data (<[Py.str gid := g]> (self_data s)) s).

Definition set_whitelist_channel_field (c : Z) (g : Guild) : Guild :=
  {| whitelist_channel := Some c; whitelist_role := whitelist_role g;
     blockchain := blockchain g; data := data g |}.

Definition set_whitelist_role_field (r : Z) (g : Guild) : Guild :=
  {| whitelist_channel := whitelist_channel g; whitelist_role := Some r;
     blockchain := blockchain g; data := data g |}.

Definition set_blockchain_field (b : string) (g : Guild) : Guild :=
  {| whitelist_channel := whitelist_channel g;
     whitelist_role := whitelist_role g;
     blockchain := Some b; data := data g |}.

Definition set_data_field (d : list (string * string)) (g : Guild) : Guild :=
  {| whitelist_channel := whitelist_channel g;
     whitelist_role := whitelist_role g;
     blockchain := blockchain g; data := d |}.

(** [self.data[str(gid)][key] = value]: the guild's dict is looked up, then
    updated in place. *)
Definition update_guild (gid : Z) (f : Guild -> Guild) : M unit :=
  g <- get_guild gid ;; put_guild gid (f g).

(** [self.regex]; the ['blockchain'] pattern is compiled and never used. *)
Definition regex_channel (s : string) : bool :=
  Py.fullmatch_mention ">channel <#" s.

Definition regex_role (s : string) : bool :=
  Py.fullmatch_mention ">role <@&" s.

(** [self._log(head, text)] appends one record to log.txt. *)
Definition _log (head text : string) (s : Client) : Client :=
  {| self_data := self_data s; data_json := data_json s;
     log_txt := log_txt s ++
       ["Head: " ++ head ++ Py.nl ++ "   Text: " ++ text ++ Py.nl ++ Py.nl];
     sent := sent s; stdout := stdout s |}.

(** [self.backup_data()] overwrites data.json with the whole store.  The
    write that fails is [IO.backup_data]. *)
Definition backup_data : M unit :=
  modify (fun s =>
    {| self_data := self_data s; data_json := Some (self_data s);
       log_txt := log_txt s; sent := sent s; stdout := stdout s |}).

(** [on_guild_join(guild)] *)
Definition on_guild_join (gid : Z) (name : string) (s : Client) : Client :=
  let s' :=
    match self_data s !! Py.str gid with
    | None => set_self_data (<[Py.str gid := GUILD_TEMPLATE]> (self_data s)) s
    | Some _ => s
    end in
  _log "New Guild" (Py.str gid ++ ", " ++ name) s'.

(** ** Command handlers *)

Definition set_whitelist_channel (m : Message) : M unit :=
  let channels := channel_mentions m in
  if negb (Nat.eqb (length channels) 1) || negb (regex_channel (content m))
  then raise InvalidCommand
  else
    match channels with
    | [] => raise IndexError
    | c :: _ =>
        update_guild (guild_id m) (set_whitelist_channel_field c) ;;
        reply (Text ("Successfully set whitelist channel to <#" ++ Py.str c
                     ++ ">") (Some true))
    end.

Definition set_whitelist_role (m : Message) : M unit :=
  let rs := role_mentions m in
  if negb (Nat.eqb (length rs) 1) || negb (regex_role (content m))
  then raise InvalidCommand
  else
    match rs with
    | [] => raise IndexError
    | r :: _ =>
        update_guild (guild_id m) (set_whitelist_role_field r) ;;
        reply (Text ("Successfully set whitelist role to <@&" ++ Py.str r
                     ++ ">") (Some true))
    end.

Definition set_blockchain (m : Message) : M unit :=
  let code := Py.suffix 3 (content m) in
  if bool_decide (code ∈ VALID_BLOCKCHAINS) then
    update_guild (guild_id m) (set_blockchain_field code) ;;
    reply (Text ("Successfully set blockchain to " ++ code) (Some true))
  else raise InvalidCommand.

Definition get_config (m : Message) : M unit :=
  g1 <- get_guild (guild_id m) ;;
  g2 <- get_guild (guild_id m) ;;
  g3 <- get_guild (guild_id m) ;;
  let replyStr :=
    "Whitelist Channel: <#" ++ Py.fmt_opt_int (whitelist_channel g1) ++ ">"
    ++ Py.nl ++ "Whitelist Role: <@&" ++ Py.fmt_opt_int (whitelist_role g2)
    ++ ">" ++ Py.nl ++ "Blockchain: " ++ Py.fmt_opt_str (blockchain g3) in
  reply (Embed ("Config for " ++ guild_name m) replyStr [] (Some true)).

Definition csv_row (t : string * string) : string :=
  fst t ++ "," ++ snd t ++ Py.nl.

(** The csv file is written, attached to the reply and removed; of it the
    client keeps the reply. *)
Definition get_data (m : Message) : M unit :=
  let file_name := Py.str (guild_id m) ++ ".csv" in
  g <- get_guild (guild_id m) ;;
  let csv := "userId, walletAddress" ++ Py.nl
             ++ String.concat "" (map csv_row (data g)) in
  reply (File "Data for server is attached." file_name csv).

Definition clear_data (m : Message) : M unit :=
  put_guild (guild_id m) GUILD_TEMPLATE ;;
  reply (Text "Server's data and config has been cleared." None).

Definition help_admin_desc : string :=
    "Whitelist Manager is a bot designed to assist you in" ++
    " gathering wallet addresses for NFT drops." ++ Py.nl ++
    "After configuring the discord bot, users who are" ++
    " 'whitelisted' will be able to record their crypto" ++
    " addresses which you can then download as a CSV." ++ Py.nl ++
    "Note, the `config` must be filled out before the bot will" ++
    " work.".

Definition help_admin_body : string :=
    "`>channel #channelName`: Sets the channel to listen for" ++
    " wallet addresses on." ++ Py.nl ++
    "`>role @roleName`: Sets the role a user must possess to be" ++
    " able to add their address to the whitelist." ++ Py.nl ++
    "`>blockchain eth/sol`: Select which blockchain this NFT" ++
    " drop will occur on, this allows for validation of the" ++
    " addresses that are added." ++ Py.nl ++
    "`>config`: View the current server config." ++ Py.nl ++
    "`>data`: Get discordID:walletAddress pairs in a CSV format." ++ Py.nl ++
    "`>clear`: Clear the config and data for this server." ++ Py.nl ++
    "`>help.admin`: This screen." ++ Py.nl ++
    "`>help`: How to use help screen.".

Definition help_admin (m : Message) : M unit :=
  reply (Embed "Whitelist Manager Help (Admin)" help_admin_desc
           [("COMMANDS", help_admin_body)] None).

Definition help_desc : string :=
    "Whitelist Manager is a bot designed to assist in gathering" ++
    " wallet addresses for NFT drops.".

Definition help_body : string :=
    "`>check`: will tell you whether or not your wallet has been" ++
    " recorded in the whitelist" ++ Py.nl ++
    "`>help`: This screen" ++ Py.nl ++
    "`>help.admin`: Provides a help screen to assist in" ++
    " configuring the bot (admin only)." ++ Py.nl ++
    Py.nl ++
    "How to use: Send your wallet address to the whitelist chat" ++
    " to record it!" ++ Py.nl ++
    "The message should contain just the wallet address (no `>`).".

Definition help (m : Message) : M unit :=
  reply (Embed "Whitelist Manager Help" help_desc
           [("COMMANDS", help_body)] None).

Definition check (m : Message) : M unit :=
  let key := Py.str (author_id (author m)) in
  g <- get_guild (guild_id m) ;;
  if Py.mem key (data g) then
    g' <- get_guild (guild_id m) ;;
    match Py.get key (data g') with
    | Some address =>
        reply (Text ("You are whitelisted! Address: `" ++ address ++ "`")
                 None)
    | None => raise (KeyError (Some key))
    end
  else
    reply (Text
      "Your wallet is not yet on the whitelist. Use `>help` for more info!."
      None).

(** [self.admin_commands]: [command in keys()] and the handler found. *)
Definition admin_commands (command : string) : option (Message -> M unit) :=
  if String.eqb command "channel" then Some set_whitelist_channel
  else if String.eqb command "role" then Some set_whitelist_role
  else if String.eqb command "blockchain" then Some set_blockchain
  else if String.eqb command "data" then Some get_data
  else if String.eqb command "config" then Some get_config
  else if String.eqb command "clear" then Some clear_data
  else if String.eqb command "help.admin" then Some help_admin
  else None.

Definition public_commands_keys : list string := ["help"; "check"].

Definition public_commands (command : string) : option (Message -> M unit) :=
  if String.eqb command "help" then Some help
  else if String.eqb command "check" then Some check
  else None.

(** [text.split()[0][1:]], [None] where the index is out of range. *)
Definition first_command (text : string) : option string :=
  match Py.split text with
  | [] => None
  | t :: _ => Some (Py.drop_first t)
  end.

(** [message.content.split()[0][1:]] *)
Definition command_of (m : Message) : M string :=
  match first_command (content m) with
  | None => raise IndexError
  | Some command => ret command
  end.

Definition invalid_argument : Reply :=
  Text "Invalid command argument." (Some true).

(** [str(list(self.public_commands.keys()))[1:-1].replace("'", "`")] *)
Definition public_commands_listing : string :=
  Py.replace "'" "`"
    (Py.drop_last (Py.drop_first (Py.str_list public_commands_keys))).

(** The blocks of [on_message] return [True] when they end in [return]. *)

(** Lines 215-224: the administrator's commands. *)
Definition admin_block (m : Message) : M bool :=
  if administrator (author m) && Py.startswith ">" (content m) then
    print ("Admin command (from " ++ Py.str (author_id (author m)) ++ "): "
           ++ content m) ;;
    command <- command_of m ;;
    match admin_commands command with
    | Some handler =>
        try_except_InvalidCommand
          (handler m ;; backup_data ;; ret true)
          (reply invalid_argument ;; ret false)
    | None => ret false
    end
  else ret false.

(** Lines 226-237: the public commands. *)
Definition public_block (m : Message) : M bool :=
  if Py.startswith ">" (content m) then
    print ("User command from " ++ Py.str (author_id (author m)) ++ ": "
           ++ content m) ;;
    command <- command_of m ;;
    match public_commands command with
    | Some handler =>
        try_except_InvalidCommand
          (handler m ;; ret true)
          (reply invalid_argument ;; ret false)
    | None =>
        reply (Text ("Valid commands are: " ++ public_commands_listing
                     ++ ", use `>help` for more info.") None) ;;
        ret false
    end
  else ret false.

(** [x in map(lambda r: r.id, roles)] for [x] an int or [None]. *)
Definition role_held (x : option Z) (rs : list Z) : bool :=
  match x with
  | Some r => bool_decide (r ∈ rs)
  | None => false
  end.

(** [channel.id == x] for [x] an int or [None]. *)
Definition channel_is (c : Z) (x : option Z) : bool :=
  bool_decide (x = Some c).




(** ** Observations the properties are stated with *)

(** The ['data'] dict of the guild stored under key [k]. *)
Definition entries (d : gmap string Guild) (k : string)
  : option (list (string * string)) :=
  data <$> d !! k.

(** The message is [>clear] from an administrator. *)
Definition is_admin_clear (m : Message) : bool :=
  administrator (author m) && Py.startswith ">" (content m)
  && bool_decide (first_command (content m) = Some "clear").

(** The guild record after [data[str(author.id)] = content]. *)
Definition recorded (m : Message) (g : Guild) : Guild :=
  set_data_field
    (Py.set (Py.str (author_id (author m))) (content m) (data g)) g.

(** What a handler leaves of the client: the files are not written, and
    when it raises, nothing at all has changed. *)
Definition handler_frame (clears : bool) (gid : Z) (s : Client)
    (out : result unit * Client) : Prop :=
  data_json (snd out) = data_json s /\ log_txt (snd out) = log_txt s /\
  match fst out with
  | Raise e => snd out = s
  | Ok _ =>
      if clears
      then self_data (snd out) = <[Py.str gid := GUILD_TEMPLATE]> (self_data s)
      else forall k, entries (self_data (snd out)) k = entries (self_data s) k
  end.

(** What a submission that went through has done to the client. *)
Definition submission_recorded (m : Message) (s : Client)
    (r : result unit) (s1 : Client) : Prop :=
  r = Ok tt /\ data_json s1 = Some (self_data s1) /\
  exists g, self_data s !! Py.str (guild_id m) = Some g /\
    self_data s1 = <[Py.str (guild_id m) := recorded m g]> (self_data s).

(** The trailing white-space-delimited token of a text. *)
Definition trailing_token (text : string) : option string :=
  last (Py.split text).

Section Router.

(** The two functions of module [validator]. *)
Variable validate_eth validate_sol : string -> bool.
(** [traceback.format_exc()] in the handler of an exception. *)
Variable format_exc : exn -> string.
(** [str(message)] *)
Variable str_message : Message -> string.

(** [self.validators] *)
Definition validators (key : option string) : option (string -> bool) :=
  match key with
  | Some k =>
      if String.eqb k "eth" then Some validate_eth
      else if String.eqb k "sol" then Some validate_sol
      else None
  | None => None
  end.

(** The condition of line 240: [and] evaluates its right operand, and
    with it the second lookup of the guild, only when the left one
    holds. *)
Definition whitelist_condition (m : Message) : M bool :=
  g <- get_guild (guild_id m) ;;
  if channel_is (channel_id m) (whitelist_channel g) then
    g' <- get_guild (guild_id m) ;;
    ret (role_held (whitelist_role g') (roles (author m))
         && negb (Py.startswith ">" (content m)))
  else ret false.

(** Lines 240-250: a wallet address sent to the whitelist channel. *)
Definition whitelist_addition (m : Message) : M unit :=
  c <- whitelist_condition m ;;
  if c then
    g <- get_guild (guild_id m) ;;
    match validators (blockchain g) with
    | None => raise (KeyError (blockchain g))
    | Some validate =>
        if validate (content m) then
          update_guild (guild_id m)
            (fun g => set_data_field
               (Py.set (Py.str (author_id (author m))) (content m) (data g))
               g) ;;
          reply (Text ("Your wallet `" ++ content m
                       ++ "` has been validated and recorded.")
                   (Some true)) ;;
          backup_data
        else
          reply (Text ("The address `" ++ content m ++ "` is invalid.")
                   None)
    end
  else ret tt.

(** Lines 226-250: what runs when the administrator block has not
    returned. *)
Definition after_admin_block (m : Message) : M unit :=
  returned <- public_block m ;;
  if returned then ret tt else whitelist_addition m.

(** The body of the [try] of [on_message]. *)
Definition on_message_body (m : Message) : M unit :=
  if bot (author m) || negb (is_member (author m)) then ret tt
  else
    returned <- admin_block m ;;
    if returned then ret tt else after_admin_block m.

(** The record [except Exception] writes to log.txt. *)
Definition log_fault (e : exn) (m : Message) (s : Client) : Client :=
  _log (Py.replace (ascii_of_nat 10) "---" (format_exc e))
       (str_message m ++ Py.nl ++ "Content:   " ++ content m) s.

Definition on_message (m : Message) (s : Client) : Client :=
  match on_message_body m s with
  | (Ok _, s') => s'
  | (Raise e, s') => log_fault e m s'
  end.

(** The four conditions of a recorded submission: the channel is the
    guild's whitelist channel, the author holds its whitelist role, the
    text has no sigil, and the validator of the guild's blockchain accepts
    the text. *)
Definition accepted_submission (d : gmap string Guild) (m : Message) : bool :=
  match d !! Py.str (guild_id m) with
  | None => false
  | Some g =>
      channel_is (channel_id m) (whitelist_channel g)
      && role_held (whitelist_role g) (roles (author m))
      && negb (Py.startswith ">" (content m))
      && match validators (blockchain g) with
         | Some validate => validate (content m)
         | None => false
         end
  end.

End Router.

(** ** A concrete setting for the examples *)

(** Stand-ins for the four variables of the section. *)
Definition sample_validate_eth (s : string) : bool :=
  Py.startswith "0x" s.

Definition sample_validate_sol (s : string) : bool :=
  negb (Py.startswith "0x" s).

Definition sample_format_exc (e : exn) : string :=
  "Traceback (most recent call last):" ++ Py.nl ++
  match e with
  | InvalidCommand => "InvalidCommand"
  | KeyError k => "KeyError: " ++ Py.fmt_opt_str k
  | IndexError => "IndexError: list index out of range"
  | Failure what => "Failure: " ++ what
  end ++ Py.nl.

Definition sample_str_message (m : Message) : string :=
  "<Message channel=" ++ Py.str (channel_id m) ++ ">".

Definition sample_on_message : Message -> Client -> Client :=
  on_message sample_validate_eth sample_validate_sol sample_format_exc
    sample_str_message.

Definition sample_body : Message -> M unit :=
  on_message_body sample_validate_eth sample_validate_sol.

Definition client_of (d : gmap string Guild) : Client :=
  {| self_data := d; data_json := None; log_txt := []; sent := [];
     stdout := [] |}.

(** Guild 1 with channel 10, role 20 and blockchain eth, and one entry. *)
Definition guild_eth : Guild :=
  {| whitelist_channel := Some 10; whitelist_role := Some 20;
     blockchain := Some "eth"; data := [("9", "0x01")] |}.

(** The same guild before [>blockchain] was issued. *)
Definition guild_no_ledger : Guild :=
  {| whitelist_channel := Some 10; whitelist_role := Some 20;
     blockchain := None; data := [] |}.

Definition admin_author : Author :=
  {| author_id := 7; bot := false; is_member := true;
     administrator := true; roles := [1] |}.

Definition member_author : Author :=
  {| author_id := 8; bot := false; is_member := true;
     administrator := false; roles := [1; 20] |}.

Definition message_of (a : Author) (text : string) (channel : Z)
    (mentioned_channels : list Z) : Message :=
  {| author := a; content := text; channel_id := channel; guild_id := 1;
     guild_name := "Guild"; channel_mentions := mentioned_channels;
     role_mentions := [] |}.

(** ** Further observations *)

(** The client after one reply, one printed line, one [backup_data]. *)
Definition said (r : Reply) (s : Client) : Client := snd (reply r s).

Definition printed (line : string) (s : Client) : Client :=
  snd (print line s).

Definition backed_up (s : Client) : Client := snd (backup_data s).

(** The two lines [on_message] prints for a text with the sigil. *)
Definition admin_line (m : Message) : string :=
  "Admin command (from " ++ Py.str (author_id (author m)) ++ "): "
  ++ content m.

Definition user_line (m : Message) : string :=
  "User command from " ++ Py.str (author_id (author m)) ++ ": "
  ++ content m.

(** The reply of the public block to a command it does not know. *)
Definition listing_reply : Reply :=
  Text ("Valid commands are: " ++ public_commands_listing
        ++ ", use `>help` for more info.") None.

(** Every character is one of [0-9]. *)
Fixpoint all_digits (s : string) : bool :=
  match s with
  | EmptyString => true
  | String c s' => Py.isdigit c && all_digits s'
  end.

(** Two clients that hold the same store. *)
Definition same_store (s s' : Client) : Prop := self_data s = self_data s'.

(** A computation whose result and whose store afterwards depend on the
    client through its store only. *)
Definition store_driven {A} (c : M A) : Prop :=
  forall s s', same_store s s' ->
    fst (c s) = fst (c s') /\ same_store (snd (c s)) (snd (c s')).

(** The ways a handler of [on_message] rewrites a guild's record. *)
Inductive guild_update (m : Message) (g : Guild) : Guild -> Prop :=
| update_channel c l :
    channel_mentions m = c :: l ->
    guild_update m g (set_whitelist_channel_field c g)
| update_role r l :
    role_mentions m = r :: l ->
    guild_update m g (set_whitelist_role_field r g)
| update_blockchain code :
    code ∈ VALID_BLOCKCHAINS ->
    guild_update m g (set_blockchain_field code g)
| update_data :
    guild_update m g (recorded m g).

(** The ways [on_message] takes one store to the next. *)
Inductive store_step (m : Message) (d : gmap string Guild)
  : gmap string Guild -> Prop :=
| step_none : store_step m d d
| step_update g g' :
    d !! Py.str (guild_id m) = Some g -> guild_update m g g' ->
    store_step m d (<[Py.str (guild_id m) := g']> d)
| step_clear :
    store_step m d (<[Py.str (guild_id m) := GUILD_TEMPLATE]> d).

(** Every guild's blockchain is unset or one of [VALID_BLOCKCHAINS]. *)
Definition ledgers_declared (d : gmap string Guild) : Prop :=
  forall k g, d !! k = Some g ->
    blockchain g = None \/
    exists code, blockchain g = Some code /\ code ∈ VALID_BLOCKCHAINS.

(** No guild's ['data'] lists a key twice. *)
Definition members_unique (d : gmap string Guild) : Prop :=
  forall k g, d !! k = Some g -> NoDup (map fst (data g)).

(** The two faults of [on_message]: the guild has no entry, or the guild
    has one, the message is a submission for its whitelist and no
    validator is registered for its blockchain. *)
Definition fault_of (validate_eth validate_sol : string -> bool)
    (m : Message) (d : gmap string Guild) (e : exn) : Prop :=
  d !! Py.str (guild_id m) = None /\
  e = KeyError (Some (Py.str (guild_id m)))
  \/
  exists g, d !! Py.str (guild_id m) = Some g /\
    channel_is (channel_id m) (whitelist_channel g) = true /\
    role_held (whitelist_role g) (roles (author m)) = true /\
    Py.startswith ">" (content m) = false /\
    validators validate_eth validate_sol (blockchain g) = None /\
    e = KeyError (blockchain g).

(** The client the public block starts from when the administrator block
    has not found the command: an administrator's line is printed even
    then. *)
Definition past_admin_block (m : Message) (s : Client) : Client :=
  if administrator (author m) then printed (admin_line m) s else s.

(** The reply of [check] for the value found, or not, under the author's
    key. *)
Definition check_reply (found : option string) : Reply :=
  match found with
  | Some address =>
      Text ("You are whitelisted! Address: `" ++ address ++ "`") None
  | None =>
      Text
        "Your wallet is not yet on the whitelist. Use `>help` for more info!."
        None
  end.

(** The csv file [get_data] writes for a ['data'] dict. *)
Definition csv_of (d : list (string * string)) : string :=
  "userId, walletAddress" ++ Py.nl ++ String.concat "" (map csv_row d).

(** Further sample values: a message that mentions roles, and a client
    whose data.json holds its store. *)
Definition role_message_of (a : Author) (text : string)
    (mentioned_roles : list Z) : Message :=
  {| author := a; content := text; channel_id := 5; guild_id := 1;
     guild_name := "Guild"; channel_mentions := [];
     role_mentions := mentioned_roles |}.

Definition saved_client_of (d : gmap string Guild) : Client :=
  {| self_data := d; data_json := Some d; log_txt := []; sent := [];
     stdout := [] |}.

(** ** The router with calls that can fail *)

(** What is outside the client: [reply_error r s] is the failure, if any,
    of [await message.reply(r)] sent from client state [s],
    [file_error name s] that of the file operation [name], and
    [data_json_left s] what data.json holds once its write has failed
    ([open(..., 'w+')] truncates the file before [json.dump] runs). *)
Record World := mkWorld {
  reply_error : Reply -> Client -> option string;
  file_error : string -> Client -> option string;
  data_json_left : Client -> option (gmap string Guild)
}.

(** The world in which every reply is delivered and every file operation
    succeeds. *)
Definition calm : World :=
  {| reply_error := fun _ _ => None; file_error := fun _ _ => None;
     data_json_left := data_json |}.

(** An exception of the world [w]: one that a reply or a file operation
    raises there. *)
Definition from_world (w : World) (what : string) : Prop :=
  (exists r s, reply_error w r s = Some what) \/
  (exists name s, file_error w name s = Some what).

(** The code of main.py once more, in a world [w]: the handlers and
    [on_message] are those above, line for line, with [message.reply] and
    the file operations inside the [try] raising where [w] says so.
    [self._log] runs in the [except] branch, outside the [try], where an
    exception of its own would not be caught by [on_message]: its append
    to log.txt is taken to succeed, as above. *)
Module IO.
Section InWorld.

Variable w : World.
Variable validate_eth validate_sol : string -> bool.
Variable format_exc : exn -> string.
Variable str_message : Message -> string.

(** [await message.reply(...)] *)
Definition reply (r : Reply) : M unit :=
  fun s =>
    match reply_error w r s with
    | Some what => (Raise (Failure what), s)
    | None => reply r s
    end.

(** One operation on the file [name]. *)
Definition file_op (name : string) : M unit :=
  fun s =>
    match file_error w name s with
    | Some what => (Raise (Failure what), s)
    | None => (Ok tt, s)
    end.

(** [self.backup_data()] *)
Definition backup_data : M unit :=
  fun s =>
    match file_error w "data.json" s with
    | Some what =>
        (Raise (Failure what),
         {| self_data := self_data s; data_json := data_json_left w s;
            log_txt := log_txt s; sent := sent s; stdout := stdout s |})
    | None => backup_data s
    end.

Definition set_whitelist_channel (m : Message) : M unit :=
  let channels := channel_mentions m in
  if negb (Nat.eqb (length channels) 1) || negb (regex_channel (content m))
  then raise InvalidCommand
  else
    match channels with
    | [] => raise IndexError
    | c :: _ =>
        update_guild (guild_id m) (set_whitelist_channel_field c) ;;
        reply (Text ("Successfully set whitelist channel to <#" ++ Py.str c
                     ++ ">") (Some true))
    end.

Definition set_whitelist_role (m : Message) : M unit :=
  let rs := role_mentions m in
  if negb (Nat.eqb (length rs) 1) || negb (regex_role (content m))
  then raise InvalidCommand
  else
    match rs with
    | [] => raise IndexError
    | r :: _ =>
        update_guild (guild_id m) (set_whitelist_role_field r) ;;
        reply (Text ("Successfully set whitelist role to <@&" ++ Py.str r
                     ++ ">") (Some true))
    end.

Definition set_blockchain (m : Message) : M unit :=
  let code := Py.suffix 3 (content m) in
  if bool_decide (code ∈ VALID_BLOCKCHAINS) then
    update_guild (guild_id m) (set_blockchain_field code) ;;
    reply (Text ("Successfully set blockchain to " ++ code) (Some true))
  else raise InvalidCommand.

Definition get_config (m : Message) : M unit :=
  g1 <- get_guild (guild_id m) ;;
  g2 <- get_guild (guild_id m) ;;
  g3 <- get_guild (guild_id m) ;;
  let replyStr :=
    "Whitelist Channel: <#" ++ Py.fmt_opt_int (whitelist_channel g1) ++ ">"
    ++ Py.nl ++ "Whitelist Role: <@&" ++ Py.fmt_opt_int (whitelist_role g2)
    ++ ">" ++ Py.nl ++ "Blockchain: " ++ Py.fmt_opt_str (blockchain g3) in
  reply (Embed ("Config for " ++ guild_name m) replyStr [] (Some true)).

(** Lines 150-158: the csv file is opened and its header written before
    the guild is looked up; the rows are written and flushed after; the
    file is removed once the reply is sent. *)
Definition get_data (m : Message) : M unit :=
  let file_name := Py.str (guild_id m) ++ ".csv" in
  file_op ("open " ++ file_name) ;;
  file_op ("write " ++ file_name) ;;
  g <- get_guild (guild_id m) ;;
  file_op ("writelines " ++ file_name) ;;
  file_op ("flush " ++ file_name) ;;
  reply (File "Data for server is attached." file_name (csv_of (data g))) ;;
  file_op ("remove " ++ file_name).

Definition clear_data (m : Message) : M unit :=
  put_guild (guild_id m) GUILD_TEMPLATE ;;
  reply (Text "Server's data and config has been cleared." None).

Definition help_admin (m : Message) : M unit :=
  reply (Embed "Whitelist Manager Help (Admin)" help_admin_desc
           [("COMMANDS", help_admin_body)] None).

Definition help (m : Message) : M unit :=
  reply (Embed "Whitelist Manager Help" help_desc
           [("COMMANDS", help_body)] None).

Definition check (m : Message) : M unit :=
  let key := Py.str (author_id (author m)) in
  g <- get_guild (guild_id m) ;;
  if Py.mem key (data g) then
    g' <- get_guild (guild_id m) ;;
    match Py.get key (data g') with
    | Some address =>
        reply (Text ("You are whitelisted! Address: `" ++ address ++ "`")
                 None)
    | None => raise (KeyError (Some key))
    end
  else
    reply (Text
      "Your wallet is not yet on the whitelist. Use `>help` for more info!."
      None).

Definition admin_commands (command : string) : option (Message -> M unit) :=
  if String.eqb command "channel" then Some set_whitelist_channel
  else if String.eqb command "role" then Some set_whitelist_role
  else if String.eqb command "blockchain" then Some set_blockchain
  else if String.eqb command "data" then Some get_data
  else if String.eqb command "config" then Some get_config
  else if String.eqb command "clear" then Some clear_data
  else if String.eqb command "help.admin" then Some help_admin
  else None.

Definition public_commands (command : string) : option (Message -> M unit) :=
  if String.eqb command "help" then Some help
  else if String.eqb command "check" then Some check
  else None.

(** Lines 215-224. *)
Definition admin_block (m : Message) : M bool :=
  if administrator (author m) && Py.startswith ">" (content m) then
    print (admin_line m) ;;
    command <- command_of m ;;
    match admin_commands command with
    | Some handler =>
        try_except_InvalidCommand
          (handler m ;; backup_data ;; ret true)
          (reply invalid_argument ;; ret false)
    | None => ret false
    end
  else ret false.

(** Lines 226-237. *)
Definition public_block (m : Message) : M bool :=
  if Py.startswith ">" (content m) then
    print (user_line m) ;;
    command <- command_of m ;;
    match public_commands command with
    | Some handler =>
        try_except_InvalidCommand
          (handler m ;; ret true)
          (reply invalid_argument ;; ret false)
    | None => reply listing_reply ;; ret false
    end
  else ret false.

(** Lines 240-250. *)
Definition whitelist_addition (m : Message) : M unit :=
  c <- whitelist_condition m ;;
  if c then
    g <- get_guild (guild_id m) ;;
    match validators validate_eth validate_sol (blockchain g) with
    | None => raise (KeyError (blockchain g))
    | Some validate =>
        if validate (content m) then
          update_guild (guild_id m) (recorded m) ;;
          reply (Text ("Your wallet `" ++ content m
                       ++ "` has been validated and recorded.")
                   (Some true)) ;;
          backup_data
        else
          reply (Text ("The address `" ++ content m ++ "` is invalid.")
                   None)
    end
  else ret tt.

Definition after_admin_block (m : Message) : M unit :=
  returned <- public_block m ;;
  if returned then ret tt else whitelist_addition m.

(** The body of the [try] of [on_message]. *)
Definition on_message_body (m : Message) : M unit :=
  if bot (author m) || negb (is_member (author m)) then ret tt
  else
    returned <- admin_block m ;;
    if returned then ret tt else after_admin_block m.

Definition on_message (m : Message) (s : Client) : Client :=
  match on_message_body m s with
  | (Ok _, s') => s'
  | (Raise e, s') => log_fault format_exc str_message e m s'
  end.

End InWorld.
End IO.


(** A world for the examples: every reply sent with
    [mention_author=True] is refused, every other reply is delivered and
    every file operation succeeds. *)
Definition refusing_confirmations : World :=
  {| reply_error := fun r _ =>
       match r with
       | Text _ (Some true) => Some "403 Forbidden"
       | _ => None
       end;
     file_error := fun _ _ => None;
     data_json_left := data_json |}.

(** What a handler run in a world leaves of the client: log.txt and
    data.json are as before; when it raises [InvalidCommand] or a
    [KeyError] nothing at all has changed, and the [KeyError] is that of
    the guild without an entry; it never raises [IndexError]; any other
    exception is one of the world. *)
Definition handled (w : World) (m : Message) (s : Client)
    (out : result unit * Client) : Prop :=
  log_txt (snd out) = log_txt s /\ data_json (snd out) = data_json s /\
  match fst out with
  | Ok _ => True
  | Raise InvalidCommand => snd out = s
  | Raise (KeyError k) =>
      snd out = s /\ self_data s !! Py.str (guild_id m) = None /\
      k = Some (Py.str (guild_id m))
  | Raise IndexError => False
  | Raise (Failure what) => from_world w what
  end.

(** What an exception that leaves the administrator block or the public
    block can be: never [InvalidCommand], never [IndexError], a
    [KeyError] only for the guild without an entry, and otherwise an
    exception of the world. *)
Definition block_fault (w : World) (m : Message) (d : gmap string Guild)
    (e : exn) : Prop :=
  match e with
  | InvalidCommand | IndexError => False
  | KeyError k =>
      d !! Py.str (guild_id m) = None /\ k = Some (Py.str (guild_id m))
  | Failure what => from_world w what
  end.

(** The reply that confirms a recorded wallet (lines 246-247). *)
Definition confirmation (m : Message) : Reply :=
  Text ("Your wallet `" ++ content m ++ "` has been validated and recorded.")
    (Some true).

(** What leaves the [try] body of [on_message] in a world: one of the two
    faults of the code, or an exception of the world. *)
Definition fault_in (w : World) (validate_eth validate_sol : string -> bool)
    (m : Message) (d : gmap string Guild) (e : exn) : Prop :=
  fault_of validate_eth validate_sol m d e \/
  exists what, e = Failure what /\ from_world w what.

(** [on_message] in a world, with the sample validators, traceback and
    [str(message)]. *)
Definition sample_on_message_in (w : World) : Message -> Client -> Client :=
  IO.on_message w sample_validate_eth sample_validate_sol sample_format_exc
    sample_str_message.

Definition sample_body_in (w : World) : Message -> M unit :=
  IO.on_message_body w sample_validate_eth sample_validate_sol.

(** * Properties *)

(** ** Python strings and dicts *)

Example split_runs :
  Py.split ">channel  <#12> x" = [">channel"; "<#12>"; "x"].
Proof. reflexivity. Qed.

Example suffix_last_three : Py.suffix 3 ">blockchain eth" = "eth".
Proof. reflexivity. Qed.

Example suffix_of_short_text : Py.suffix 3 ">b" = ">b".
Proof. reflexivity. Qed.

Example regex_channel_matches : regex_channel ">channel <#123>" = true.
Proof. reflexivity. Qed.

Example regex_channel_needs_digits : regex_channel ">channel <#>" = false.
Proof. reflexivity. Qed.

Example regex_channel_whole_text : regex_channel ">channel <#123> " = false.
Proof. reflexivity. Qed.

Example listing_of_public_commands :
  public_commands_listing = "`help`, `check`".
Proof. reflexivity. Qed.

Example str_of_id : Py.str 1234567890123 = "1234567890123".
Proof. vm_compute. reflexivity. Qed.

Lemma str_inj (a b : Z) : Py.str a = Py.str b -> a = b.
Proof. unfold Py.str. apply pretty_Z_inj. Qed.

Lemma get_set_eq {V} (k : string) (v : V) (d : list (string * V)) :
  Py.get k (Py.set k v d) = Some v.
Proof.
  induction d as [|[k' v'] d IH]; simpl.
  - now rewrite String.eqb_refl.
  - destruct (String.eqb k k') eqn:E; simpl; rewrite ?String.eqb_refl, ?E; auto.
Qed.

Lemma get_set_ne {V} (k k' : string) (v : V) (d : list (string * V)) :
  k <> k' -> Py.get k' (Py.set k v d) = Py.get k' d.
Proof.
  intros Hne. induction d as [|[k0 v0] d IH]; simpl.
  - destruct (String.eqb k' k) eqn:E; auto.
    apply String.eqb_eq in E. congruence.
  - destruct (String.eqb k k0) eqn:E; simpl.
    + apply String.eqb_eq in E. subst k0.
      destruct (String.eqb k' k) eqn:E'; auto.
      apply String.eqb_eq in E'. congruence.
    + now rewrite IH.
Qed.

Lemma split_from_token (tok s : string) :
  tok <> "" -> exists t l, Py.split_from tok s = t :: l.
Proof.
  revert tok. induction s as [|c s IH]; intros tok Htok; simpl.
  - destruct tok; [congruence | eauto].
  - destruct (Py.isspace c).
    + destruct tok; [congruence | eauto].
    + apply IH. discriminate.
Qed.

Lemma startswith_sigil (text : string) :
  Py.startswith ">" text = true -> exists rest, text = String ">" rest.
Proof.
  unfold Py.startswith.
  destruct text as [|c rest]; intros H; [discriminate H|].
  cbn [String.prefix] in H.
  destruct (ascii_dec ">" c) as [E|]; [|discriminate H].
  exists rest. now rewrite E.
Qed.

(** [split()[0]] is in range for every text with the sigil: the
    [IndexError] of [command_of] does not arise in [on_message]. *)
Lemma first_command_sigil (text : string) :
  Py.startswith ">" text = true -> exists c, first_command text = Some c.
Proof.
  intros H. apply startswith_sigil in H as [rest ->].
  unfold first_command, Py.split. simpl.
  destruct (split_from_token ">" rest) as (t & l & ->); [discriminate|].
  eauto.
Qed.

(** ** The store *)

Lemma entries_insert_same (d : gmap string Guild) (k0 : string) (g g' : Guild) :
  d !! k0 = Some g -> data g' = data g ->
  forall k, entries (<[k0 := g']> d) k = entries d k.
Proof.
  intros Hk Hd k. unfold entries.
  destruct (decide (k0 = k)) as [->|Hne].
  - rewrite lookup_insert_eq, Hk. simpl. now rewrite Hd.
  - now rewrite lookup_insert_ne.
Qed.

Lemma get_guild_run (gid : Z) (s : Client) :
  get_guild gid s =
    match self_data s !! Py.str gid with
    | Some g => (Ok g, s)
    | None => (Raise (KeyError (Some (Py.str gid))), s)
    end.
Proof. reflexivity. Qed.

Lemma update_guild_run (gid : Z) (f : Guild -> Guild) (s : Client) :
  update_guild gid f s =
    match self_data s !! Py.str gid with
    | Some g =>
        (Ok tt, set_self_data (<[Py.str gid := f g]> (self_data s)) s)
    | None => (Raise (KeyError (Some (Py.str gid))), s)
    end.
Proof.
  unfold update_guild, bind. rewrite get_guild_run.
  destruct (self_data s !! Py.str gid); reflexivity.
Qed.

(** ** Handlers *)

(** Names the outcome of a handler and leaves its definition to unfold. *)
Ltac outcome_of h E :=
  unfold handler_frame;
  match goal with
  | |- context [h ?m ?s] =>
      destruct (h m s) as [? ?] eqn:E; unfold h in E; cbn [fst snd]
  end.

Ltac conclude E := injection E as <- <-; simpl; auto.

Lemma bind_run {A B} (c : M A) (k : A -> M B) (s : Client) :
  bind c k s =
    match c s with
    | (Ok a, s') => k a s'
    | (Raise e, s') => (Raise e, s')
    end.
Proof. reflexivity. Qed.

Lemma set_whitelist_channel_frame (m : Message) (s : Client) :
  handler_frame false (guild_id m) s (set_whitelist_channel m s).
Proof.
  outcome_of set_whitelist_channel E.
  destruct (negb _ || negb _); [conclude E|].
  destruct (channel_mentions m) as [|x l]; [conclude E|].
  rewrite bind_run, update_guild_run in E.
  destruct (self_data s !! Py.str (guild_id m)) as [g|] eqn:Hg; conclude E.
  repeat split; auto. now apply entries_insert_same with (g := g).
Qed.

Lemma set_whitelist_role_frame (m : Message) (s : Client) :
  handler_frame false (guild_id m) s (set_whitelist_role m s).
Proof.
  outcome_of set_whitelist_role E.
  destruct (negb _ || negb _); [conclude E|].
  destruct (role_mentions m) as [|x l]; [conclude E|].
  rewrite bind_run, update_guild_run in E.
  destruct (self_data s !! Py.str (guild_id m)) as [g|] eqn:Hg; conclude E.
  repeat split; auto. now apply entries_insert_same with (g := g).
Qed.

Lemma set_blockchain_frame (m : Message) (s : Client) :
  handler_frame false (guild_id m) s (set_blockchain m s).
Proof.
  outcome_of set_blockchain E.
  destruct (bool_decide _); [|conclude E].
  rewrite bind_run, update_guild_run in E.
  destruct (self_data s !! Py.str (guild_id m)) as [g|] eqn:Hg; conclude E.
  repeat split; auto. now apply entries_insert_same with (g := g).
Qed.

Lemma get_config_frame (m : Message) (s : Client) :
  handler_frame false (guild_id m) s (get_config m s).
Proof.
  outcome_of get_config E.
  rewrite bind_run, get_guild_run in E.
  destruct (self_data s !! Py.str (guild_id m)) as [g|] eqn:Hg;
    [|conclude E].
  rewrite bind_run, get_guild_run, Hg, bind_run, get_guild_run, Hg in E.
  conclude E.
Qed.

Lemma get_data_frame (m : Message) (s : Client) :
  handler_frame false (guild_id m) s (get_data m s).
Proof.
  outcome_of get_data E.
  rewrite bind_run, get_guild_run in E.
  destruct (self_data s !! Py.str (guild_id m)) as [g|] eqn:Hg; conclude E.
Qed.

Lemma clear_data_frame (m : Message) (s : Client) :
  handler_frame true (guild_id m) s (clear_data m s).
Proof. outcome_of clear_data E. conclude E. Qed.

Lemma help_admin_frame (m : Message) (s : Client) :
  handler_frame false (guild_id m) s (help_admin m s).
Proof. outcome_of help_admin E. conclude E. Qed.

Lemma admin_commands_frame (command : string) (handler : Message -> M unit)
    (m : Message) (s : Client) :
  admin_commands command = Some handler ->
  handler_frame (String.eqb command "clear") (guild_id m) s (handler m s).
Proof.
  unfold admin_commands. intros H.
  repeat match type of H with
  | (if String.eqb ?a ?b then _ else _) = _ =>
      let Q := fresh "Q" in
      destruct (String.eqb a b) eqn:Q;
      [apply String.eqb_eq in Q; subst command; injection H as <-|]
  end; try discriminate H; cbn [String.eqb Ascii.eqb Bool.eqb].
  - apply set_whitelist_channel_frame.
  - apply set_whitelist_role_frame.
  - apply set_blockchain_frame.
  - apply get_data_frame.
  - apply get_config_frame.
  - apply clear_data_frame.
  - apply help_admin_frame.
Qed.

(** The public handlers read the store and never raise
    [InvalidCommand]. *)
Lemma public_commands_frame (command : string) (handler : Message -> M unit)
    (m : Message) (s : Client) (r : result unit) (s1 : Client) :
  public_commands command = Some handler ->
  handler m s = (r, s1) ->
  self_data s1 = self_data s /\ data_json s1 = data_json s /\
  log_txt s1 = log_txt s /\ r <> Raise InvalidCommand.
Proof.
  unfold public_commands. intros H E.
  destruct (String.eqb command "help"); [injection H as <-|].
  { unfold help in E. conclude E. }
  destruct (String.eqb command "check"); [injection H as <-|discriminate H].
  unfold check in E. rewrite bind_run, get_guild_run in E.
  destruct (self_data s !! Py.str (guild_id m)) as [g|] eqn:Hg;
    [|conclude E; repeat split; auto; discriminate].
  destruct (Py.mem _ _); [|conclude E; repeat split; auto; discriminate].
  rewrite bind_run, get_guild_run, Hg in E.
  destruct (Py.get _ _); conclude E; repeat split; auto; discriminate.
Qed.

Lemma is_admin_clear_command (m : Message) (command : string) :
  administrator (author m) && Py.startswith ">" (content m) = true ->
  first_command (content m) = Some command ->
  is_admin_clear m = String.eqb command "clear".
Proof.
  intros Ha Hc. unfold is_admin_clear. rewrite Ha, Hc. simpl.
  destruct (String.eqb_spec command "clear") as [->|Hne].
  - now apply bool_decide_eq_true.
  - apply bool_decide_eq_false. congruence.
Qed.

(** ** The blocks of [on_message] *)

(** The administrator block: it returns only after [backup_data]; where it
    does not return, the store and data.json are as before. *)
Lemma admin_block_outcome (m : Message) (s : Client)
    (r : result bool) (s1 : Client) :
  admin_block m s = (r, s1) ->
  log_txt s1 = log_txt s /\
  match r with
  | Ok true =>
      administrator (author m) && Py.startswith ">" (content m) = true /\
      data_json s1 = Some (self_data s1) /\
      if is_admin_clear m
      then self_data s1
           = <[Py.str (guild_id m) := GUILD_TEMPLATE]> (self_data s)
      else forall k, entries (self_data s1) k = entries (self_data s) k
  | Ok false => self_data s1 = self_data s /\ data_json s1 = data_json s
  | Raise e =>
      e <> InvalidCommand /\
      self_data s1 = self_data s /\ data_json s1 = data_json s
  end.
Proof.
  unfold admin_block. intros E.
  destruct (administrator (author m) && Py.startswith ">" (content m))
    eqn:Hadm; [|conclude E].
  rewrite bind_run in E. cbn [print modify] in E.
  rewrite bind_run in E. unfold command_of in E.
  destruct (first_command (content m)) as [command|] eqn:Hc;
    [|conclude E; repeat split; auto; discriminate].
  cbn [ret] in E.
  destruct (admin_commands command) as [handler|] eqn:Hh; [|conclude E].
  rewrite (is_admin_clear_command m command Hadm Hc).
  unfold try_except_InvalidCommand in E. rewrite bind_run in E.
  match type of E with context [handler m ?s0] =>
    pose proof (admin_commands_frame command handler m s0 Hh) as F;
    destruct (handler m s0) as [r0 s2] eqn:Eh
  end.
  unfold handler_frame in F. cbn [fst snd] in F.
  destruct F as (Fj & Fl & F).
  destruct r0 as [[]|e].
  - conclude E; repeat split; auto.
  - subst s2. destruct e; conclude E; repeat split; auto; discriminate.
Qed.

(** The public block leaves the store and the files alone. *)
Lemma public_block_outcome (m : Message) (s : Client)
    (r : result bool) (s1 : Client) :
  public_block m s = (r, s1) ->
  self_data s1 = self_data s /\ data_json s1 = data_json s /\
  log_txt s1 = log_txt s /\ r <> Raise InvalidCommand /\
  (Py.startswith ">" (content m) = false -> r = Ok false /\ s1 = s).
Proof.
  unfold public_block. intros E.
  destruct (Py.startswith ">" (content m)) eqn:Hs;
    [|conclude E; repeat split; auto; discriminate].
  rewrite bind_run in E. cbn [print modify] in E.
  rewrite bind_run in E. unfold command_of in E.
  destruct (first_command (content m)) as [command|] eqn:Hc;
    [|conclude E; repeat split; auto; discriminate].
  cbn [ret] in E.
  destruct (public_commands command) as [handler|] eqn:Hh;
    [|conclude E; repeat split; auto; discriminate].
  unfold try_except_InvalidCommand in E. rewrite bind_run in E.
  match type of E with context [handler m ?s0] =>
    destruct (handler m s0) as [r0 s2] eqn:Eh;
    pose proof (public_commands_frame command handler m s0 r0 s2 Hh Eh) as F
  end.
  cbn [self_data data_json log_txt] in F. destruct F as (Fd & Fj & Fl & Fr).
  destruct r0 as [[]|e].
  - conclude E; repeat split; auto; discriminate.
  - destruct e; [congruence|..]; conclude E; repeat split; auto; discriminate.
Qed.

(** Unfolding of the router's definitions, by name. *)
Ltac open_whitelist_addition := unfold whitelist_addition in *.
Ltac open_accepted_submission := unfold accepted_submission in *.
Ltac open_after_admin_block := unfold after_admin_block in *.
Ltac open_on_message_body := unfold on_message_body in *.

Section RouterFacts.

Variable validate_eth validate_sol : string -> bool.
Variable format_exc : exn -> string.
Variable str_message : Message -> string.

Local Abbreviation validators := (validators validate_eth validate_sol).
Local Abbreviation whitelist_addition :=
  (whitelist_addition validate_eth validate_sol).
Local Abbreviation after_admin_block :=
  (after_admin_block validate_eth validate_sol).
Local Abbreviation on_message_body :=
  (on_message_body validate_eth validate_sol).
Local Abbreviation accepted_submission :=
  (accepted_submission validate_eth validate_sol).
Local Abbreviation log_fault := (log_fault format_exc str_message).
Local Abbreviation on_message :=
  (on_message validate_eth validate_sol format_exc str_message).

Lemma whitelist_condition_run (m : Message) (s : Client) :
  whitelist_condition m s =
    match self_data s !! Py.str (guild_id m) with
    | None => (Raise (KeyError (Some (Py.str (guild_id m)))), s)
    | Some g =>
        (Ok (channel_is (channel_id m) (whitelist_channel g)
             && role_held (whitelist_role g) (roles (author m))
             && negb (Py.startswith ">" (content m))), s)
    end.
Proof.
  unfold whitelist_condition. rewrite bind_run, get_guild_run.
  destruct (self_data s !! Py.str (guild_id m)) as [g|] eqn:Hg; [|reflexivity].
  destruct (channel_is _ _); [|reflexivity].
  rewrite bind_run, get_guild_run, Hg. reflexivity.
Qed.

(** The whitelist block: it writes the entry, and then data.json, exactly
    when the submission is accepted, and nothing otherwise. *)
Lemma whitelist_addition_outcome (m : Message) (s : Client)
    (r : result unit) (s1 : Client) :
  whitelist_addition m s = (r, s1) ->
  log_txt s1 = log_txt s /\ r <> Raise InvalidCommand /\
  if accepted_submission (self_data s) m then
    r = Ok tt /\ data_json s1 = Some (self_data s1) /\
    exists g, self_data s !! Py.str (guild_id m) = Some g /\
      self_data s1 = <[Py.str (guild_id m) := recorded m g]> (self_data s)
  else self_data s1 = self_data s /\ data_json s1 = data_json s.
Proof.
  open_whitelist_addition; open_accepted_submission.
  intros E. rewrite bind_run, whitelist_condition_run in E.
  destruct (self_data s !! Py.str (guild_id m)) as [g|] eqn:Hg;
    [|conclude E; repeat split; auto; discriminate].
  destruct (channel_is _ _ && role_held _ _ && negb _);
    [|conclude E; repeat split; auto; discriminate].
  rewrite bind_run, get_guild_run, Hg in E. cbn [andb].
  destruct (validators (blockchain g)) as [validate|];
    [|conclude E; repeat split; auto; discriminate].
  destruct (validate (content m));
    [|conclude E; repeat split; auto; discriminate].
  rewrite bind_run, update_guild_run, Hg in E.
  conclude E; repeat split; auto; try discriminate. now exists g.
Qed.

Lemma accepted_submission_no_sigil (d : gmap string Guild) (m : Message) :
  accepted_submission d m = true -> Py.startswith ">" (content m) = false.
Proof.
  open_accepted_submission.
  destruct (d !! Py.str (guild_id m)); [|discriminate].
  destruct (Py.startswith ">" (content m)); [|reflexivity].
  rewrite andb_false_r. discriminate.
Qed.

(** Lines 226-250 change the store only by recording an accepted
    submission. *)
Lemma after_admin_block_outcome (m : Message) (s : Client)
    (r : result unit) (s1 : Client) :
  after_admin_block m s = (r, s1) ->
  log_txt s1 = log_txt s /\ r <> Raise InvalidCommand /\
  if accepted_submission (self_data s) m then submission_recorded m s r s1
  else self_data s1 = self_data s /\ data_json s1 = data_json s.
Proof.
  open_after_admin_block. intros E. rewrite bind_run in E.
  destruct (public_block m s) as [r0 s0] eqn:Ep.
  destruct (public_block_outcome m s r0 s0 Ep) as (Pd & Pj & Pl & Pr & Pn).
  destruct (accepted_submission (self_data s) m) eqn:Ha.
  - destruct (Pn (accepted_submission_no_sigil _ _ Ha)) as [-> ->].
    pose proof (whitelist_addition_outcome m s r s1 E) as W.
    rewrite Ha in W. unfold submission_recorded. tauto.
  - destruct r0 as [[]|e].
    + conclude E; repeat split; auto; discriminate.
    + pose proof (whitelist_addition_outcome m s0 r s1 E) as W.
      rewrite Pd, Ha in W. rewrite Pj, Pl in W. tauto.
    + conclude E. repeat split; auto. intros [= ->]. now apply Pr.
Qed.

(** The whole body of the [try]: the only exceptions that leave it are
    faults, log.txt is not written inside it, and the store changes only
    by an administrator's command that returned or by an accepted
    submission, each followed by [backup_data]. *)
Lemma on_message_body_outcome (m : Message) (s : Client)
    (r : result unit) (s1 : Client) :
  on_message_body m s = (r, s1) ->
  log_txt s1 = log_txt s /\ r <> Raise InvalidCommand /\
  (data_json s1 = Some (self_data s1) \/
   self_data s1 = self_data s /\ data_json s1 = data_json s) /\
  (bot (author m) = false -> is_member (author m) = true ->
   if accepted_submission (self_data s) m then submission_recorded m s r s1
   else if is_admin_clear m
   then self_data s1 = self_data s \/
        self_data s1 = <[Py.str (guild_id m) := GUILD_TEMPLATE]> (self_data s)
   else forall k, entries (self_data s1) k = entries (self_data s) k).
Proof.
  open_on_message_body. intros E.
  destruct (bot (author m) || negb (is_member (author m))) eqn:Hb.
  { conclude E; repeat split; auto; try discriminate.
    intros H1 H2. rewrite H1, H2 in Hb. discriminate Hb. }
  rewrite bind_run in E.
  destruct (admin_block m s) as [r0 s0] eqn:Ea.
  destruct (admin_block_outcome m s r0 s0 Ea) as (Al & A).
  destruct r0 as [[]|e].
  - destruct A as (Hadm & Aj & Ac). conclude E;
    repeat split; auto; try discriminate. intros _ _.
    destruct (accepted_submission (self_data s) m) eqn:Ha.
    { apply accepted_submission_no_sigil in Ha. rewrite Ha in Hadm.
      now rewrite andb_false_r in Hadm. }
    destruct (is_admin_clear m); auto.
  - destruct A as (Ad & Aj).
    destruct (after_admin_block_outcome m s0 r s1 E) as (Bl & Br & B).
    rewrite Ad in B. repeat split; auto; try congruence.
    + destruct (accepted_submission (self_data s) m).
      * left. apply B.
      * right. destruct B. split; congruence.
    + intros _ _.
      destruct (accepted_submission (self_data s) m) eqn:Ha.
      * assert (s0 = s) as ->; [|exact B].
        apply accepted_submission_no_sigil in Ha.
        unfold admin_block in Ea. rewrite Ha, andb_false_r in Ea.
        now injection Ea.
      * destruct B as [Bd _]. rewrite Bd.
        destruct (is_admin_clear m); auto.
  - destruct A as (Ae & Ad & Aj). injection E as <- <-.
    split; [exact Al|]. split; [congruence|]. split; [now right|].
    intros _ _.
    destruct (accepted_submission (self_data s) m) eqn:Ha.
    { apply accepted_submission_no_sigil in Ha.
      unfold admin_block in Ea. rewrite Ha, andb_false_r in Ea.
      discriminate Ea. }
    rewrite Ad. destruct (is_admin_clear m); auto.
Qed.

Lemma on_message_run (m : Message) (s : Client) :
  on_message m s =
    match on_message_body m s with
    | (Ok _, s1) => s1
    | (Raise e, s1) => log_fault e m s1
    end.
Proof. reflexivity. Qed.

(** [except Exception] touches log.txt only. *)
Lemma on_message_keeps (m : Message) (s : Client) :
  self_data (on_message m s) = self_data (snd (on_message_body m s)) /\
  data_json (on_message m s) = data_json (snd (on_message_body m s)) /\
  sent (on_message m s) = sent (snd (on_message_body m s)).
Proof.
  rewrite on_message_run.
  destruct (on_message_body m s) as [[[]|e] s1]; simpl; auto.
Qed.

Lemma admin_block_no_sigil (m : Message) (s : Client) :
  Py.startswith ">" (content m) = false -> admin_block m s = (Ok false, s).
Proof. intros H. unfold admin_block. now rewrite H, andb_false_r. Qed.

Lemma public_block_no_sigil (m : Message) (s : Client) :
  Py.startswith ">" (content m) = false -> public_block m s = (Ok false, s).
Proof. intros H. unfold public_block. now rewrite H. Qed.

(** A text without the sigil goes straight to the whitelist block. *)
Lemma on_message_body_no_sigil (m : Message) (s : Client) :
  bot (author m) = false -> is_member (author m) = true ->
  Py.startswith ">" (content m) = false ->
  on_message_body m s = whitelist_addition m s.
Proof.
  intros Hb Hm Hs. open_on_message_body. rewrite Hb, Hm. simpl.
  rewrite bind_run, (admin_block_no_sigil m s Hs).
  open_after_admin_block.
  now rewrite bind_run, (public_block_no_sigil m s Hs).
Qed.

Lemma whitelist_channel_insert_same (d : gmap string Guild) (k0 : string)
    (g g' : Guild) :
  d !! k0 = Some g -> whitelist_channel g' = whitelist_channel g ->
  forall k, whitelist_channel <$> <[k0 := g']> d !! k
            = whitelist_channel <$> d !! k.
Proof.
  intros Hk Hd k. destruct (decide (k0 = k)) as [->|Hne].
  - rewrite lookup_insert_eq, Hk. simpl. now rewrite Hd.
  - now rewrite lookup_insert_ne.
Qed.

(** ** The handlers that reject *)

Lemma set_whitelist_channel_rejects (m : Message) (s s1 : Client) :
  set_whitelist_channel m s = (Raise InvalidCommand, s1) ->
  length (channel_mentions m) <> 1%nat \/ regex_channel (content m) = false.
Proof.
  unfold set_whitelist_channel. intros E.
  destruct (Nat.eqb_spec (length (channel_mentions m)) 1) as [Hl|Hl];
    [|now left].
  destruct (regex_channel (content m)); [|now right].
  simpl in E. destruct (channel_mentions m) as [|x l]; [discriminate E|].
  rewrite bind_run, update_guild_run in E.
  destruct (self_data s !! Py.str (guild_id m)); discriminate E.
Qed.

Lemma set_whitelist_role_rejects (m : Message) (s s1 : Client) :
  set_whitelist_role m s = (Raise InvalidCommand, s1) ->
  length (role_mentions m) <> 1%nat \/ regex_role (content m) = false.
Proof.
  unfold set_whitelist_role. intros E.
  destruct (Nat.eqb_spec (length (role_mentions m)) 1) as [Hl|Hl];
    [|now left].
  destruct (regex_role (content m)); [|now right].
  simpl in E. destruct (role_mentions m) as [|x l]; [discriminate E|].
  rewrite bind_run, update_guild_run in E.
  destruct (self_data s !! Py.str (guild_id m)); discriminate E.
Qed.

Lemma set_blockchain_rejects (m : Message) (s s1 : Client) :
  set_blockchain m s = (Raise InvalidCommand, s1) ->
  Py.suffix 3 (content m) ∉ VALID_BLOCKCHAINS.
Proof.
  unfold set_blockchain. intros E.
  destruct (bool_decide (Py.suffix 3 (content m) ∈ VALID_BLOCKCHAINS)) eqn:Hv.
  - rewrite bind_run, update_guild_run in E.
    destruct (self_data s !! Py.str (guild_id m)); discriminate E.
  - now apply bool_decide_eq_false in Hv.
Qed.

Lemma readers_never_reject (m : Message) (s s1 : Client) :
  get_data m s <> (Raise InvalidCommand, s1) /\
  get_config m s <> (Raise InvalidCommand, s1) /\
  clear_data m s <> (Raise InvalidCommand, s1) /\
  help_admin m s <> (Raise InvalidCommand, s1).
Proof.
  unfold get_data, get_config, clear_data, help_admin.
  rewrite !bind_run, !get_guild_run.
  destruct (self_data s !! Py.str (guild_id m)) as [g|] eqn:Hg;
    rewrite ?bind_run, ?get_guild_run, ?Hg;
    rewrite ?bind_run, ?get_guild_run, ?Hg;
    repeat split; discriminate.
Qed.

(** ** The claims *)

(** C1, as amended.  For a message of a member that is not a bot: when the
    channel is the guild's whitelist channel, the author holds the
    whitelist role, the text has no sigil and the validator of the guild's
    blockchain accepts it, [on_message] stores the text under
    [str(author.id)] in the guild's ['data'], replacing the member's
    earlier value and no other key.  In every other case no entry is
    written: each guild's ['data'] is as before, unless the message is an
    administrator's [>clear], which may reset the guild to the template. *)
Theorem submission_gating (m : Message) (s : Client) :
  bot (author m) = false -> is_member (author m) = true ->
  (accepted_submission (self_data s) m = true ->
   exists g, self_data s !! Py.str (guild_id m) = Some g /\
     self_data (on_message m s)
     = <[Py.str (guild_id m) := recorded m g]> (self_data s) /\
     Py.get (Py.str (author_id (author m))) (data (recorded m g))
     = Some (content m) /\
     forall k, k <> Py.str (author_id (author m)) ->
       Py.get k (data (recorded m g)) = Py.get k (data g)) /\
  (accepted_submission (self_data s) m = false ->
   is_admin_clear m = false ->
   forall k, entries (self_data (on_message m s)) k
             = entries (self_data s) k) /\
  (accepted_submission (self_data s) m = false ->
   is_admin_clear m = true ->
   self_data (on_message m s) = self_data s \/
   self_data (on_message m s)
   = <[Py.str (guild_id m) := GUILD_TEMPLATE]> (self_data s)).
Proof.
  intros Hb Hm.
  destruct (on_message_keeps m s) as (-> & _ & _).
  destruct (on_message_body m s) as [r s1] eqn:E. cbn [snd].
  destruct (on_message_body_outcome m s r s1 E) as (_ & _ & _ & H).
  specialize (H Hb Hm).
  split; [|split]; intros Ha; rewrite Ha in H.
  - destruct H as (_ & _ & g & Hg & Hd). exists g.
    repeat split; auto.
    + apply get_set_eq.
    + intros k Hk. now apply get_set_ne.
  - intros Hc. now rewrite Hc in H.
  - intros Hc. now rewrite Hc in H.
Qed.

(** C3, as amended.  A guild with no entry in the store gets the default
    configuration (no channel, no role, no blockchain, no entries) from
    [on_guild_join], not from an access: reading its configuration raises
    a [KeyError], and [on_message] on a text without the sigil from such
    a guild ends in that fault, caught and written to log.txt, with the
    store as it was. *)
Theorem guild_created_on_join_not_on_access (gid : Z) (s : Client) :
  self_data s !! Py.str gid = None ->
  (forall name,
     self_data (on_guild_join gid name s) !! Py.str gid = Some GUILD_TEMPLATE) /\
  get_guild gid s = (Raise (KeyError (Some (Py.str gid))), s) /\
  (forall m, guild_id m = gid ->
     bot (author m) = false -> is_member (author m) = true ->
     Py.startswith ">" (content m) = false ->
     on_message m s = log_fault (KeyError (Some (Py.str gid))) m s).
Proof.
  intros Hg. split; [|split].
  - intros name. unfold on_guild_join. rewrite Hg. simpl.
    apply lookup_insert_eq.
  - rewrite get_guild_run. now rewrite Hg.
  - intros m <- Hb Hm Hs. rewrite on_message_run.
    rewrite (on_message_body_no_sigil m s Hb Hm Hs).
    open_whitelist_addition.
    now rewrite bind_run, whitelist_condition_run, Hg.
Qed.

(** C5, as amended.  A text without the sigil sent to the whitelist
    channel by a holder of the whitelist role while the guild's blockchain
    is unset records nothing and is not answered: the lookup of the
    validator raises [KeyError(None)], which [on_message] catches and
    writes to log.txt; the store, data.json and the replies sent are as
    before. *)
Theorem unset_ledger_submission_is_logged (m : Message) (s : Client)
    (g : Guild) :
  bot (author m) = false -> is_member (author m) = true ->
  Py.startswith ">" (content m) = false ->
  self_data s !! Py.str (guild_id m) = Some g ->
  channel_is (channel_id m) (whitelist_channel g) = true ->
  role_held (whitelist_role g) (roles (author m)) = true ->
  blockchain g = None ->
  on_message m s = log_fault (KeyError None) m s.
Proof.
  intros Hb Hm Hs Hg Hc Hr Hl. rewrite on_message_run.
  rewrite (on_message_body_no_sigil m s Hb Hm Hs).
  open_whitelist_addition.
  rewrite bind_run, whitelist_condition_run, Hg, Hc, Hr, Hs. cbn [andb negb].
  rewrite bind_run, get_guild_run, Hg, Hl. reflexivity.
Qed.

(** C9.  A message whose author is not an administrator leaves the
    [whitelist_channel] of every guild as it was, whatever its text; the
    administrator block is skipped and the message is handled by the
    public commands and the whitelist block. *)
Theorem non_admin_keeps_whitelist_channel (m : Message) (s : Client) :
  administrator (author m) = false ->
  (forall k, whitelist_channel <$> self_data (on_message m s) !! k
             = whitelist_channel <$> self_data s !! k) /\
  on_message_body m s
  = (if bot (author m) || negb (is_member (author m)) then ret tt
     else after_admin_block m) s.
Proof.
  intros Hadm.
  assert (on_message_body m s
          = (if bot (author m) || negb (is_member (author m)) then ret tt
             else after_admin_block m) s) as Hbody.
  { open_on_message_body.
    destruct (bot (author m) || negb (is_member (author m))); [reflexivity|].
    rewrite bind_run. unfold admin_block. now rewrite Hadm. }
  split; [|exact Hbody].
  destruct (on_message_keeps m s) as (-> & _ & _). rewrite Hbody.
  destruct (bot (author m) || negb (is_member (author m))); [reflexivity|].
  destruct (after_admin_block m s) as [r s1] eqn:E. cbn [snd].
  destruct (after_admin_block_outcome m s r s1 E) as (_ & _ & H).
  destruct (accepted_submission (self_data s) m).
  - destruct H as (_ & _ & g & Hg & ->).
    now apply whitelist_channel_insert_same with (g := g).
  - destruct H as [-> _]. reflexivity.
Qed.

(** C10.  When a handler of the administrator table raises
    [InvalidCommand], the client is exactly as it was before the handler
    ran.  Only three handlers raise it: [>channel] with other than one
    channel mention or a text its pattern does not match, [>role]
    likewise, and [>blockchain] with a code that is not declared. *)
Theorem invalid_command_is_atomic (command : string)
    (handler : Message -> M unit) (m : Message) (s s1 : Client) :
  admin_commands command = Some handler ->
  handler m s = (Raise InvalidCommand, s1) ->
  s1 = s /\
  (command = "channel" /\
   (length (channel_mentions m) <> 1%nat \/ regex_channel (content m) = false)
   \/ command = "role" /\
   (length (role_mentions m) <> 1%nat \/ regex_role (content m) = false)
   \/ command = "blockchain" /\
   Py.suffix 3 (content m) ∉ VALID_BLOCKCHAINS).
Proof.
  intros Hh E. split.
  - pose proof (admin_commands_frame command handler m s Hh) as F.
    unfold handler_frame in F. rewrite E in F. apply F.
  - destruct (readers_never_reject m s s1) as (R1 & R2 & R3 & R4).
    unfold admin_commands in Hh.
    repeat match type of Hh with
    | (if String.eqb ?a ?b then _ else _) = _ =>
        let Q := fresh "Q" in
        destruct (String.eqb a b) eqn:Q;
        [apply String.eqb_eq in Q; subst command; injection Hh as <-|]
    end; try discriminate Hh; try contradiction.
    + left. split; [reflexivity|]. eapply set_whitelist_channel_rejects, E.
    + right. left. split; [reflexivity|]. eapply set_whitelist_role_rejects, E.
    + right. right. split; [reflexivity|]. eapply set_blockchain_rejects, E.
Qed.

End RouterFacts.

(** ** Closed instances *)

(** C1, witness: member 8 holds role 20 and sends an address to channel 10
    of guild 1; the entry is added after member 9's. *)
Lemma submission_gating_witness :
  bot member_author = false /\ is_member member_author = true /\
  entries
    (self_data (sample_on_message (message_of member_author "0xabc" 10 [])
                  (client_of {[ "1" := guild_eth ]}))) "1"
  = Some [("9", "0x01"); ("8", "0xabc")].
Proof.
  split; [reflexivity|]. split; [reflexivity|].
  destruct (submission_gating sample_validate_eth sample_validate_sol
              sample_format_exc sample_str_message
              (message_of member_author "0xabc" 10 [])
              (client_of {[ "1" := guild_eth ]}) eq_refl eq_refl)
    as (H & _).
  destruct (H eq_refl) as (g & Hg & Hd & _).
  unfold sample_on_message. rewrite Hd.
  vm_compute in Hg. injection Hg as <-. reflexivity.
Defined.

(** C1, counterexample: an administrator's [>clear] sent outside the
    whitelist channel empties the guild's entries. *)
Lemma clear_elsewhere_resets_entries :
  bot admin_author = false /\ is_member admin_author = true /\
  channel_is 5 (whitelist_channel guild_eth) = false /\
  entries (self_data (client_of {[ "1" := guild_eth ]})) "1"
  = Some [("9", "0x01")] /\
  entries
    (self_data (sample_on_message (message_of admin_author ">clear" 5 [])
                  (client_of {[ "1" := guild_eth ]}))) "1"
  = Some [].
Proof. repeat split; vm_compute; reflexivity. Qed.

(** C2, the failing input: an administrator sends [>channel] with no
    channel mention.  [set_whitelist_channel] raises [InvalidCommand], the
    administrator block replies and does not return, and the message goes
    on to the public table, which answers with its listing; in a guild
    with no entry it goes on to the condition of the whitelist block,
    whose lookup then faults. *)
Theorem admin_rejection_falls_through :
  sent (sample_on_message (message_of admin_author ">channel" 5 [])
          (client_of {[ "1" := guild_eth ]}))
  = [ Text "Invalid command argument." (Some true);
      Text "Valid commands are: `help`, `check`, use `>help` for more info."
        None ] /\
  stdout (sample_on_message (message_of admin_author ">channel" 5 [])
            (client_of {[ "1" := guild_eth ]}))
  = [ "Admin command (from 7): >channel";
      "User command from 7: >channel" ] /\
  fst (sample_body (message_of admin_author ">channel" 5 []) (client_of ∅))
  = Raise (KeyError (Some "1")).
Proof. repeat split; vm_compute; reflexivity. Qed.

(** C3, witness: guild 1 is not in the empty store. *)
Lemma guild_created_on_join_not_on_access_witness :
  self_data (client_of ∅) !! Py.str 1 = None /\
  self_data (on_guild_join 1 "Guild" (client_of ∅)) !! Py.str 1
  = Some GUILD_TEMPLATE.
Proof.
  split; [reflexivity|].
  destruct (guild_created_on_join_not_on_access sample_validate_eth
              sample_validate_sol sample_format_exc sample_str_message
              1 (client_of ∅)) as (H & _); [reflexivity|].
  apply H.
Defined.

(** C3, counterexample: the first access to guild 1 raises, creates
    nothing, and [on_message] ends in the logged fault. *)
Lemma unseen_guild_access_faults :
  get_guild 1 (client_of ∅) = (Raise (KeyError (Some "1")), client_of ∅) /\
  sample_body (message_of member_author "0xabc" 10 []) (client_of ∅)
  = (Raise (KeyError (Some "1")), client_of ∅) /\
  self_data (sample_on_message (message_of member_author "0xabc" 10 [])
               (client_of ∅)) !! "1" = None /\
  length (log_txt (sample_on_message (message_of member_author "0xabc" 10 [])
                     (client_of ∅))) = 1%nat.
Proof. repeat split; vm_compute; reflexivity. Qed.

(** C4, the failing input: [>blockchain xeth].  The trailing token is
    [xeth], which is no declared code, and the handler sets the guild's
    blockchain to the last three characters, [eth]. *)
Theorem set_blockchain_reads_last_three_characters :
  trailing_token ">blockchain xeth" = Some "xeth" /\
  bool_decide ("xeth" ∈ VALID_BLOCKCHAINS) = false /\
  blockchain <$>
    self_data (sample_on_message (message_of admin_author ">blockchain xeth" 5 [])
                 (client_of {[ "1" := guild_no_ledger ]})) !! "1"
  = Some (Some "eth") /\
  sent (sample_on_message (message_of admin_author ">blockchain xeth" 5 [])
          (client_of {[ "1" := guild_no_ledger ]}))
  = [ Text "Successfully set blockchain to eth" (Some true) ].
Proof. repeat split; vm_compute; reflexivity. Qed.

(** C5, witness: guild 1 has channel 10 and role 20 and no blockchain. *)
Lemma unset_ledger_submission_is_logged_witness :
  sample_on_message (message_of member_author "0xabc" 10 [])
    (client_of {[ "1" := guild_no_ledger ]})
  = log_fault sample_format_exc sample_str_message (KeyError None)
      (message_of member_author "0xabc" 10 [])
      (client_of {[ "1" := guild_no_ledger ]}).
Proof.
  apply (unset_ledger_submission_is_logged sample_validate_eth
           sample_validate_sol sample_format_exc sample_str_message
           (message_of member_author "0xabc" 10 [])
           (client_of {[ "1" := guild_no_ledger ]}) guild_no_ledger);
    reflexivity.
Defined.

(** C5, counterexample: the submission ends in the fault, and the member
    is sent nothing. *)
Lemma unset_ledger_submission_unanswered :
  sample_body (message_of member_author "0xabc" 10 [])
    (client_of {[ "1" := guild_no_ledger ]})
  = (Raise (KeyError None), client_of {[ "1" := guild_no_ledger ]}) /\
  sent (sample_on_message (message_of member_author "0xabc" 10 [])
          (client_of {[ "1" := guild_no_ledger ]})) = [] /\
  log_txt (sample_on_message (message_of member_author "0xabc" 10 [])
             (client_of {[ "1" := guild_no_ledger ]}))
  = [ "Head: Traceback (most recent call last):---KeyError: None---"
      ++ Py.nl ++ "   Text: <Message channel=10>" ++ Py.nl
      ++ "Content:   0xabc" ++ Py.nl ++ Py.nl ].
Proof. repeat split; vm_compute; reflexivity. Qed.

(** C9, witness: member 8 is no administrator; [>channel <#123>] leaves
    the whitelist channel of guild 1 at 10 and is answered with the
    listing of the public commands. *)
Lemma non_admin_keeps_whitelist_channel_witness :
  administrator member_author = false /\
  whitelist_channel <$>
    self_data (sample_on_message
                 (message_of member_author ">channel <#123>" 5 [123])
                 (client_of {[ "1" := guild_eth ]})) !! "1"
  = Some (Some 10) /\
  sent (sample_on_message (message_of member_author ">channel <#123>" 5 [123])
          (client_of {[ "1" := guild_eth ]}))
  = [ Text "Valid commands are: `help`, `check`, use `>help` for more info."
        None ].
Proof.
  split; [reflexivity|]. split; [|vm_compute; reflexivity].
  destruct (non_admin_keeps_whitelist_channel sample_validate_eth
              sample_validate_sol sample_format_exc sample_str_message
              (message_of member_author ">channel <#123>" 5 [123])
              (client_of {[ "1" := guild_eth ]}) eq_refl) as [H _].
  unfold sample_on_message. rewrite H. reflexivity.
Defined.

(** C10, witness: [>channel] without a channel mention is rejected and
    the client is untouched. *)
Lemma invalid_command_is_atomic_witness :
  admin_commands "channel" = Some set_whitelist_channel /\
  set_whitelist_channel (message_of admin_author ">channel" 5 [])
    (client_of {[ "1" := guild_eth ]})
  = (Raise InvalidCommand, client_of {[ "1" := guild_eth ]}) /\
  client_of {[ "1" := guild_eth ]} = client_of {[ "1" := guild_eth ]}.
Proof.
  split; [reflexivity|]. split; [reflexivity|].
  apply (invalid_command_is_atomic "channel" set_whitelist_channel
           (message_of admin_author ">channel" 5 [])
           (client_of {[ "1" := guild_eth ]})
           (client_of {[ "1" := guild_eth ]}) eq_refl eq_refl).
Defined.

(** * Further properties of the router *)

(** ** The patterns of [self.regex] *)

Lemma strip_prefix_app (p s rest : string) :
  Py.strip_prefix p s = Some rest <-> s = p ++ rest.
Proof.
  revert s. induction p as [|a p IH]; intros s; simpl.
  - split; [now intros [= ->] | now intros ->].
  - destruct s as [|b s]; [split; discriminate|].
    destruct (Ascii.eqb_spec a b) as [->|Hne].
    + rewrite IH. split; [now intros -> | now intros [= ->]].
    + split; [discriminate | simpl; intros [= ? ?]; congruence].
Qed.

Lemma digits_then_shape (seen : bool) (s : string) :
  Py.digits_then ">" seen s = true <->
  exists ds, all_digits ds = true /\ (seen = true \/ ds <> "") /\
             s = ds ++ ">".
Proof.
  revert seen. induction s as [|c s IH]; intros seen; simpl.
  - split; [discriminate|]. intros (ds & _ & _ & H). now destruct ds.
  - destruct (Py.isdigit c) eqn:Hc.
    + rewrite IH. split.
      * intros (ds & Hd & _ & ->). exists (String c ds). simpl.
        rewrite Hc, Hd. repeat split; auto; try (right; discriminate).
      * intros (ds & Hd & _ & Hs). destruct ds as [|c' ds]; simpl in *.
        { injection Hs as -> ->. discriminate Hc. }
        injection Hs as <- ->. apply andb_true_iff in Hd as [_ Hd].
        exists ds. auto.
    + split.
      * intros H. apply andb_true_iff in H as [H Hs].
        apply andb_true_iff in H as [-> Hq].
        apply Ascii.eqb_eq in Hq. subst c.
        destruct s; [|discriminate Hs]. exists "". simpl. auto.
      * intros (ds & Hd & Hseen & Hs). destruct ds as [|c' ds]; simpl in *.
        { injection Hs as -> ->. destruct Hseen as [->|]; [reflexivity|].
          congruence. }
        injection Hs as <- ->. apply andb_true_iff in Hd as [Hd _].
        congruence.
Qed.

Lemma fullmatch_mention_shape (lead s : string) :
  Py.fullmatch_mention lead s = true <->
  exists ds, ds <> "" /\ all_digits ds = true /\ s = lead ++ ds ++ ">".
Proof.
  unfold Py.fullmatch_mention. split.
  - destruct (Py.strip_prefix lead s) as [rest|] eqn:Hp; [|discriminate].
    apply strip_prefix_app in Hp. rewrite digits_then_shape.
    intros (ds & Hd & [?|Hne] & ->); [discriminate|]. eauto.
  - intros (ds & Hne & Hd & ->).
    assert (Py.strip_prefix lead (lead ++ ds ++ ">") = Some (ds ++ ">")) as ->
      by now apply strip_prefix_app.
    apply digits_then_shape. eauto.
Qed.

(** X1.  Among the texts of this embedding, whose characters are code
    points below 256, the two patterns accept exactly those made of the
    command, a mention opened by [<#] (or [<@&]), one or more digits [0-9]
    and the closing [>], with nothing before or after.  (Outside that
    range [\d] also accepts the decimal digits of other scripts.) *)
Theorem mention_patterns_shape (text : string) :
  (regex_channel text = true <->
   exists ds, ds <> "" /\ all_digits ds = true /\
              text = ">channel <#" ++ ds ++ ">") /\
  (regex_role text = true <->
   exists ds, ds <> "" /\ all_digits ds = true /\
              text = ">role <@&" ++ ds ++ ">").
Proof. split; apply fullmatch_mention_shape. Qed.

(** A text one of the patterns accepts carries the sigil and names the
    command of its handler. *)
Lemma regex_channel_command (text : string) :
  regex_channel text = true ->
  Py.startswith ">" text = true /\ first_command text = Some "channel".
Proof.
  intros H. apply fullmatch_mention_shape in H as (ds & _ & _ & ->).
  split; reflexivity.
Qed.

Lemma regex_role_command (text : string) :
  regex_role text = true ->
  Py.startswith ">" text = true /\ first_command text = Some "role".
Proof.
  intros H. apply fullmatch_mention_shape in H as (ds & _ & _ & ->).
  split; reflexivity.
Qed.

(** ** The store alone drives the router *)

Lemma store_driven_ret {A} (a : A) : store_driven (ret a).
Proof. intros s s' H. simpl. auto. Qed.

Lemma store_driven_raise {A} (e : exn) : store_driven (@raise A e).
Proof. intros s s' H. simpl. auto. Qed.

Lemma store_driven_bind {A B} (c : M A) (k : A -> M B) :
  store_driven c -> (forall a, store_driven (k a)) ->
  store_driven (bind c k).
Proof.
  intros Hc Hk s s' H. unfold bind.
  destruct (Hc s s' H) as [Hr Hs].
  destruct (c s) as [r1 s1], (c s') as [r2 s2]. simpl in Hr, Hs. subst r2.
  destruct r1 as [a|e]; [now apply Hk | simpl; auto].
Qed.

Lemma store_driven_try {A} (c h : M A) :
  store_driven c -> store_driven h ->
  store_driven (try_except_InvalidCommand c h).
Proof.
  intros Hc Hh s s' H. unfold try_except_InvalidCommand.
  destruct (Hc s s' H) as [Hr Hs].
  destruct (c s) as [r1 s1], (c s') as [r2 s2]. simpl in Hr, Hs. subst r2.
  destruct r1 as [a|[]]; simpl; auto.
Qed.

Lemma store_driven_reply (r : Reply) : store_driven (reply r).
Proof. intros s s' H. simpl. auto. Qed.

Lemma store_driven_print (line : string) : store_driven (print line).
Proof. intros s s' H. simpl. auto. Qed.

Lemma store_driven_backup_data : store_driven backup_data.
Proof. intros s s' H. simpl. auto. Qed.

Lemma store_driven_get_guild (gid : Z) : store_driven (get_guild gid).
Proof.
  intros s s' H. rewrite !get_guild_run. unfold same_store in H. rewrite H.
  destruct (self_data s' !! Py.str gid); simpl; auto.
Qed.

Lemma store_driven_put_guild (gid : Z) (g : Guild) :
  store_driven (put_guild gid g).
Proof.
  intros s s' H. unfold same_store in *. simpl. now rewrite H.
Qed.

Lemma store_driven_update_guild (gid : Z) (f : Guild -> Guild) :
  store_driven (update_guild gid f).
Proof.
  apply store_driven_bind; [apply store_driven_get_guild|].
  intros g. apply store_driven_put_guild.
Qed.

Create HintDb store_driven.
#[local] Hint Resolve store_driven_ret store_driven_raise store_driven_reply
  store_driven_print store_driven_backup_data store_driven_get_guild
  store_driven_put_guild store_driven_update_guild : store_driven.

(** Takes a computation apart along its binds and its tests on the
    message. *)
Ltac store_driven_steps :=
  repeat first
    [ apply store_driven_bind
    | apply store_driven_try
    | match goal with
      | |- forall _, _ => intro
      | |- store_driven (if ?b then _ else _) => destruct b
      | |- store_driven (match ?x with _ => _ end) => destruct x
      end
    | solve [auto with store_driven] ].

Lemma store_driven_admin_handler (command : string)
    (handler : Message -> M unit) (m : Message) :
  admin_commands command = Some handler -> store_driven (handler m).
Proof.
  unfold admin_commands. intros H.
  repeat match type of H with
  | (if ?b then _ else _) = _ => destruct b; [injection H as <-|]
  end; try discriminate H.
  - unfold set_whitelist_channel. store_driven_steps.
  - unfold set_whitelist_role. store_driven_steps.
  - unfold set_blockchain. store_driven_steps.
  - unfold get_data. store_driven_steps.
  - unfold get_config. store_driven_steps.
  - unfold clear_data. store_driven_steps.
  - unfold help_admin. store_driven_steps.
Qed.

Lemma store_driven_public_handler (command : string)
    (handler : Message -> M unit) (m : Message) :
  public_commands command = Some handler -> store_driven (handler m).
Proof.
  unfold public_commands. intros H.
  repeat match type of H with
  | (if ?b then _ else _) = _ => destruct b; [injection H as <-|]
  end; try discriminate H.
  - unfold help. store_driven_steps.
  - unfold check. store_driven_steps.
Qed.

Lemma store_driven_command_of (m : Message) : store_driven (command_of m).
Proof. unfold command_of. store_driven_steps. Qed.

Lemma store_driven_admin_block (m : Message) : store_driven (admin_block m).
Proof.
  unfold admin_block.
  destruct (administrator (author m) && Py.startswith ">" (content m));
    [|apply store_driven_ret].
  apply store_driven_bind; [apply store_driven_print|]. intros _.
  apply store_driven_bind; [apply store_driven_command_of|]. intros command.
  destruct (admin_commands command) as [handler|] eqn:Hh;
    [|apply store_driven_ret].
  apply store_driven_try; store_driven_steps.
  now apply store_driven_admin_handler with (command := command).
Qed.

Lemma store_driven_public_block (m : Message) : store_driven (public_block m).
Proof.
  unfold public_block.
  destruct (Py.startswith ">" (content m)); [|apply store_driven_ret].
  apply store_driven_bind; [apply store_driven_print|]. intros _.
  apply store_driven_bind; [apply store_driven_command_of|]. intros command.
  destruct (public_commands command) as [handler|] eqn:Hh;
    [|store_driven_steps].
  apply store_driven_try; store_driven_steps.
  now apply store_driven_public_handler with (command := command).
Qed.

(** ** What the handlers do to the store *)

(** Splits the table of the administrator's commands into its seven
    handlers. *)
Ltac split_admin_commands H :=
  unfold admin_commands in H;
  repeat match type of H with
  | (if ?b then _ else _) = _ => destruct b; [injection H as <-|]
  end;
  try match goal with
      | Hnone : None = Some _ |- _ => discriminate Hnone
      end.

Lemma set_field_twice (c r : Z) (code : string) (g : Guild) :
  set_whitelist_channel_field c (set_whitelist_channel_field c g)
  = set_whitelist_channel_field c g /\
  set_whitelist_role_field r (set_whitelist_role_field r g)
  = set_whitelist_role_field r g /\
  set_blockchain_field code (set_blockchain_field code g)
  = set_blockchain_field code g.
Proof. repeat split. Qed.

Lemma update_guild_again (gid : Z) (f : Guild -> Guild) (s s1 : Client)
    (r : result unit) :
  (forall g, f (f g) = f g) ->
  update_guild gid f s = (r, s1) ->
  match r with
  | Ok _ => exists g, self_data s !! Py.str gid = Some g /\
      self_data s1 = <[Py.str gid := f g]> (self_data s) /\
      data_json s1 = data_json s /\ log_txt s1 = log_txt s /\
      sent s1 = sent s /\
      forall s', self_data s' = self_data s1 ->
        update_guild gid f s'
        = (Ok tt, set_self_data (self_data s1) s')
  | Raise e => s1 = s /\ self_data s !! Py.str gid = None /\
      e = KeyError (Some (Py.str gid))
  end.
Proof.
  intros Hf E. rewrite update_guild_run in E.
  destruct (self_data s !! Py.str gid) as [g|] eqn:Hg; injection E as <- <-.
  - exists g. simpl. repeat split; auto. intros s' Hs'.
    rewrite update_guild_run, Hs', lookup_insert_eq, Hf.
    now rewrite insert_insert_eq.
  - auto.
Qed.

(** A handler of the administrator's table takes the store one
    [store_step] further. *)
Lemma admin_handler_step (command : string) (handler : Message -> M unit)
    (m : Message) (s s1 : Client) (r : result unit) :
  admin_commands command = Some handler ->
  handler m s = (r, s1) ->
  store_step m (self_data s) (self_data s1).
Proof.
  intros Hh E. split_admin_commands Hh.
  - unfold set_whitelist_channel in E.
    destruct (negb _ || negb _); [injection E as <- <-; constructor|].
    destruct (channel_mentions m) as [|c l] eqn:Hc;
      [injection E as <- <-; constructor|].
    rewrite bind_run, update_guild_run in E.
    destruct (self_data s !! Py.str (guild_id m)) as [g|] eqn:Hg;
      injection E as <- <-; simpl; [|constructor].
    eapply step_update; [exact Hg|]. eapply update_channel, Hc.
  - unfold set_whitelist_role in E.
    destruct (negb _ || negb _); [injection E as <- <-; constructor|].
    destruct (role_mentions m) as [|c l] eqn:Hc;
      [injection E as <- <-; constructor|].
    rewrite bind_run, update_guild_run in E.
    destruct (self_data s !! Py.str (guild_id m)) as [g|] eqn:Hg;
      injection E as <- <-; simpl; [|constructor].
    eapply step_update; [exact Hg|]. eapply update_role, Hc.
  - unfold set_blockchain in E.
    destruct (bool_decide _) eqn:Hv; [|injection E as <- <-; constructor].
    apply bool_decide_eq_true in Hv.
    rewrite bind_run, update_guild_run in E.
    destruct (self_data s !! Py.str (guild_id m)) as [g|] eqn:Hg;
      injection E as <- <-; simpl; [|constructor].
    eapply step_update; [exact Hg|]. now apply update_blockchain.
  - unfold get_data in E. rewrite bind_run, get_guild_run in E.
    destruct (self_data s !! Py.str (guild_id m));
      injection E as <- <-; constructor.
  - unfold get_config in E. rewrite bind_run, get_guild_run in E.
    destruct (self_data s !! Py.str (guild_id m)) as [g|] eqn:Hg;
      [|injection E as <- <-; constructor].
    rewrite bind_run, get_guild_run, Hg, bind_run, get_guild_run, Hg in E.
    injection E as <- <-. constructor.
  - unfold clear_data in E. injection E as <- <-. simpl. apply step_clear.
  - unfold help_admin in E. injection E as <- <-. constructor.
Qed.

(** A handler that returned returns again on the store it left, and
    leaves it as it is. *)
Lemma admin_handler_again (command : string) (handler : Message -> M unit)
    (m : Message) (s s1 : Client) :
  admin_commands command = Some handler ->
  handler m s = (Ok tt, s1) ->
  forall s', self_data s' = self_data s1 ->
    fst (handler m s') = Ok tt /\
    self_data (snd (handler m s')) = self_data s1.
Proof.
  intros Hh E s' Hs'.
  assert (fst (handler m s1) = Ok tt /\
          self_data (snd (handler m s1)) = self_data s1) as [H1 H2].
  { split_admin_commands Hh.
    - unfold set_whitelist_channel in *.
      destruct (negb _ || negb _); [discriminate E|].
      destruct (channel_mentions m) as [|c l]; [discriminate E|].
      rewrite bind_run in *.
      destruct (update_guild (guild_id m) (set_whitelist_channel_field c) s)
        as [[[]|e] s2] eqn:Eu; [|discriminate E].
      apply update_guild_again in Eu as (g & _ & _ & _ & _ & _ & Hagain);
        [|reflexivity].
      injection E as <-. rewrite Hagain by reflexivity. simpl. auto.
    - unfold set_whitelist_role in *.
      destruct (negb _ || negb _); [discriminate E|].
      destruct (role_mentions m) as [|c l]; [discriminate E|].
      rewrite bind_run in *.
      destruct (update_guild (guild_id m) (set_whitelist_role_field c) s)
        as [[[]|e] s2] eqn:Eu; [|discriminate E].
      apply update_guild_again in Eu as (g & _ & _ & _ & _ & _ & Hagain);
        [|reflexivity].
      injection E as <-. rewrite Hagain by reflexivity. simpl. auto.
    - unfold set_blockchain in *.
      destruct (bool_decide _); [|discriminate E].
      rewrite bind_run in *.
      destruct (update_guild (guild_id m)
                  (set_blockchain_field (Py.suffix 3 (content m))) s)
        as [[[]|e] s2] eqn:Eu; [|discriminate E].
      apply update_guild_again in Eu as (g & _ & _ & _ & _ & _ & Hagain);
        [|reflexivity].
      injection E as <-. rewrite Hagain by reflexivity. simpl. auto.
    - unfold get_data in *. rewrite bind_run, get_guild_run in *.
      destruct (self_data s !! Py.str (guild_id m)) as [g|] eqn:Hg;
        [|discriminate E].
      injection E as <-. simpl. rewrite Hg. simpl. auto.
    - unfold get_config in *. rewrite bind_run, get_guild_run in E.
      destruct (self_data s !! Py.str (guild_id m)) as [g|] eqn:Hg;
        [|discriminate E].
      rewrite bind_run, get_guild_run, Hg, bind_run, get_guild_run, Hg in E.
      injection E as <-.
      rewrite !bind_run, !get_guild_run. simpl. rewrite Hg.
      rewrite !bind_run, !get_guild_run. simpl. rewrite Hg.
      rewrite !bind_run, !get_guild_run. simpl. rewrite Hg. simpl. auto.
    - unfold clear_data in *. injection E as <-. simpl.
      split; [reflexivity|]. apply insert_insert_eq.
    - unfold help_admin in *. injection E as <-. simpl. auto. }
  destruct (store_driven_admin_handler command handler m Hh s' s1 Hs')
    as [Hr Hd].
  unfold same_store in Hd. split; congruence.
Qed.

(** ** The blocks, once more *)

Lemma admin_block_run (m : Message) (s : Client) (command : string)
    (handler : Message -> M unit) :
  administrator (author m) && Py.startswith ">" (content m) = true ->
  first_command (content m) = Some command ->
  admin_commands command = Some handler ->
  admin_block m s =
    match handler m (printed (admin_line m) s) with
    | (Ok _, s1) => (Ok true, backed_up s1)
    | (Raise InvalidCommand, s1) => (Ok false, said invalid_argument s1)
    | (Raise e, s1) => (Raise e, s1)
    end.
Proof.
  intros Ha Hc Hh. unfold admin_block. rewrite Ha, bind_run. cbn [print modify].
  rewrite bind_run. unfold command_of. rewrite Hc. cbn [ret]. rewrite Hh.
  unfold try_except_InvalidCommand. rewrite bind_run.
  unfold printed, admin_line. cbn [print modify snd].
  match goal with |- context [handler m ?s0] =>
    destruct (handler m s0) as [[[]|[]] s1] end; reflexivity.
Qed.

Lemma admin_block_cases (m : Message) (s : Client) :
  (administrator (author m) && Py.startswith ">" (content m) = true /\
   exists command handler,
     first_command (content m) = Some command /\
     admin_commands command = Some handler) \/
  admin_block m s = (Ok false, s) \/
  (administrator (author m) && Py.startswith ">" (content m) = true /\
   exists command,
     first_command (content m) = Some command /\
     admin_commands command = None /\
     admin_block m s = (Ok false, printed (admin_line m) s)).
Proof.
  destruct (administrator (author m) && Py.startswith ">" (content m))
    eqn:Ha.
  - apply andb_true_iff in Ha as [Hadm Hs].
    destruct (first_command_sigil _ Hs) as [command Hc].
    destruct (admin_commands command) as [handler|] eqn:Hh.
    + left. split; [reflexivity|]. eauto.
    + right. right. split; [reflexivity|]. exists command.
      repeat split; auto. unfold admin_block.
      rewrite Hadm, Hs. cbn [andb]. rewrite bind_run. cbn [print modify].
      rewrite bind_run. unfold command_of. rewrite Hc. cbn [ret].
      now rewrite Hh.
  - right. left. unfold admin_block. now rewrite Ha.
Qed.

Lemma admin_block_step (m : Message) (s s1 : Client) (r : result bool) :
  admin_block m s = (r, s1) -> store_step m (self_data s) (self_data s1).
Proof.
  intros E.
  destruct (admin_block_cases m s)
    as [(Ha & command & handler & Hc & Hh)|[H|(_ & command & _ & _ & H)]].
  - rewrite (admin_block_run m s command handler Ha Hc Hh) in E.
    destruct (handler m (printed (admin_line m) s)) as [r0 s0] eqn:Eh.
    pose proof (admin_handler_step _ _ _ _ _ _ Hh Eh) as Hstep.
    destruct r0 as [[]|[]]; injection E as <- <-; exact Hstep.
  - rewrite H in E. injection E as <- <-. constructor.
  - rewrite H in E. injection E as <- <-. constructor.
Qed.

Lemma admin_block_again (m : Message) (s s1 : Client) :
  admin_block m s = (Ok true, s1) ->
  forall s', self_data s' = self_data s1 ->
    fst (admin_block m s') = Ok true /\
    self_data (snd (admin_block m s')) = self_data s1.
Proof.
  intros E s' Hs'.
  destruct (admin_block_cases m s)
    as [(Ha & command & handler & Hc & Hh)|[H|(_ & command & _ & _ & H)]];
    [|rewrite H in E; discriminate E..].
  rewrite (admin_block_run m s command handler Ha Hc Hh) in E.
  rewrite (admin_block_run m s' command handler Ha Hc Hh).
  destruct (handler m (printed (admin_line m) s)) as [r0 s0] eqn:Eh.
  destruct r0 as [[]|[]]; try discriminate E. injection E as <-.
  destruct (admin_handler_again _ _ _ _ _ Hh Eh
              (printed (admin_line m) s') Hs') as [Hr Hd].
  destruct (handler m (printed (admin_line m) s')) as [r' s2].
  simpl in Hr, Hd. subst r'. simpl. auto.
Qed.

Lemma public_block_run (m : Message) (s : Client) (command : string) :
  Py.startswith ">" (content m) = true ->
  first_command (content m) = Some command ->
  public_block m s =
    match public_commands command with
    | Some handler =>
        match handler m (printed (user_line m) s) with
        | (Ok _, s1) => (Ok true, s1)
        | (Raise InvalidCommand, s1) => (Ok false, said invalid_argument s1)
        | (Raise e, s1) => (Raise e, s1)
        end
    | None => (Ok false, said listing_reply (printed (user_line m) s))
    end.
Proof.
  intros Hs Hc. unfold public_block. rewrite Hs, bind_run. cbn [print modify].
  rewrite bind_run. unfold command_of. rewrite Hc. cbn [ret].
  destruct (public_commands command) as [handler|]; [|reflexivity].
  unfold try_except_InvalidCommand. rewrite bind_run.
  unfold printed, user_line. cbn [print modify snd].
  match goal with |- context [handler m ?s0] =>
    destruct (handler m s0) as [[[]|[]] s1] end; reflexivity.
Qed.

Lemma set_twice {V} (k : string) (v : V) (d : list (string * V)) :
  Py.set k v (Py.set k v d) = Py.set k v d.
Proof.
  induction d as [|[k' v'] d IH]; simpl.
  - now rewrite String.eqb_refl.
  - destruct (String.eqb k k') eqn:E; simpl.
    + now rewrite String.eqb_refl.
    + now rewrite E, IH.
Qed.

Lemma get_none_keys {V} (k : string) (d : list (string * V)) :
  Py.get k d = None -> ~ In k (map fst d).
Proof.
  induction d as [|[k' v'] d IH]; simpl; intros H.
  - tauto.
  - destruct (String.eqb_spec k k') as [->|Hne]; [discriminate H|].
    intros [Hk|Hk]; [congruence | now apply IH].
Qed.

(** [d[k] = v] keeps the keys of [d], in their order, and adds [k] at the
    end when it is new. *)
Lemma set_keys {V} (k : string) (v : V) (d : list (string * V)) :
  map fst (Py.set k v d)
  = if Py.mem k d then map fst d else (map fst d ++ [k])%list.
Proof.
  unfold Py.mem. induction d as [|[k' v'] d IH]; simpl; [reflexivity|].
  destruct (String.eqb_spec k k') as [->|Hne]; simpl; [reflexivity|].
  rewrite IH. now destruct (Py.get k d).
Qed.

Lemma set_keys_unique {V} (k : string) (v : V) (d : list (string * V)) :
  NoDup (map fst d) -> NoDup (map fst (Py.set k v d)).
Proof.
  intros H. rewrite set_keys. unfold Py.mem.
  destruct (Py.get k d) eqn:Hg; [exact H|].
  apply NoDup_app. repeat split; auto.
  - intros x Hx Hk. apply list_elem_of_singleton in Hk. subst x.
    apply (get_none_keys k d Hg). now apply list_elem_of_In.
  - apply NoDup_singleton.
Qed.

Section RouterExtras.

Variable validate_eth validate_sol : string -> bool.
Variable format_exc : exn -> string.
Variable str_message : Message -> string.

Local Abbreviation validators := (validators validate_eth validate_sol).
Local Abbreviation whitelist_addition :=
  (whitelist_addition validate_eth validate_sol).
Local Abbreviation after_admin_block :=
  (after_admin_block validate_eth validate_sol).
Local Abbreviation on_message_body :=
  (on_message_body validate_eth validate_sol).
Local Abbreviation accepted_submission :=
  (accepted_submission validate_eth validate_sol).
Local Abbreviation log_fault := (log_fault format_exc str_message).
Local Abbreviation on_message :=
  (on_message validate_eth validate_sol format_exc str_message).
Local Abbreviation fault_of := (fault_of validate_eth validate_sol).

Lemma on_message_not_member (m : Message) (s : Client) :
  bot (author m) || negb (is_member (author m)) = true ->
  on_message m s = s.
Proof.
  intros H. rewrite on_message_run. open_on_message_body. now rewrite H.
Qed.

Lemma on_message_body_member (m : Message) (s : Client) :
  bot (author m) || negb (is_member (author m)) = false ->
  on_message_body m s =
    match admin_block m s with
    | (Ok true, s0) => (Ok tt, s0)
    | (Ok false, s0) => after_admin_block m s0
    | (Raise e, s0) => (Raise e, s0)
    end.
Proof.
  intros H. open_on_message_body. rewrite H, bind_run.
  now destruct (admin_block m s) as [[[]|e] s0].
Qed.

Lemma store_driven_whitelist_addition (m : Message) :
  store_driven (whitelist_addition m).
Proof.
  open_whitelist_addition. unfold whitelist_condition. store_driven_steps.
Qed.

Lemma store_driven_on_message_body (m : Message) :
  store_driven (on_message_body m).
Proof.
  open_on_message_body. open_after_admin_block.
  destruct (bot (author m) || negb (is_member (author m)));
    [apply store_driven_ret|].
  apply store_driven_bind; [apply store_driven_admin_block|].
  intros [|]; [apply store_driven_ret|].
  apply store_driven_bind; [apply store_driven_public_block|].
  intros [|]; [apply store_driven_ret|].
  apply store_driven_whitelist_addition.
Qed.

Lemma on_message_store_driven (m : Message) (s s' : Client) :
  self_data s = self_data s' ->
  self_data (on_message m s) = self_data (on_message m s') /\
  fst (on_message_body m s) = fst (on_message_body m s').
Proof.
  intros H.
  destruct (store_driven_on_message_body m s s' H) as [Hr Hd].
  split; [|exact Hr].
  destruct (on_message_keeps validate_eth validate_sol format_exc
              str_message m s) as (-> & _).
  destruct (on_message_keeps validate_eth validate_sol format_exc
              str_message m s') as (-> & _).
  exact Hd.
Qed.

(** X2.  What [on_message] does to the store, and whether it ends in a
    fault, depends on the client through [self.data] only: two clients
    holding the same store come out of the same message with the same
    store, whatever they had logged, sent, printed or saved before. *)
Theorem store_alone_drives_on_message (m : Message) (s s' : Client) :
  self_data s = self_data s' ->
  self_data (on_message m s) = self_data (on_message m s') /\
  fst (on_message_body m s) = fst (on_message_body m s').
Proof. apply on_message_store_driven. Qed.

(** The store after [on_message] is one [store_step] from the store
    before. *)
Lemma on_message_step (m : Message) (s : Client) :
  store_step m (self_data s) (self_data (on_message m s)).
Proof.
  destruct (bot (author m) || negb (is_member (author m))) eqn:Hb.
  { rewrite (on_message_not_member m s Hb). constructor. }
  destruct (on_message_keeps validate_eth validate_sol format_exc
              str_message m s) as (-> & _).
  rewrite (on_message_body_member m s Hb).
  destruct (admin_block m s) as [r0 s0] eqn:Ea.
  pose proof (admin_block_step m s s0 r0 Ea) as Hstep.
  destruct r0 as [[]|e]; try exact Hstep.
  destruct (admin_block_outcome m s _ s0 Ea) as (_ & Hd & _).
  destruct (after_admin_block m s0) as [r s1] eqn:E. cbn [snd].
  destruct (after_admin_block_outcome validate_eth validate_sol str_message
              m s0 r s1 E)
    as (_ & _ & H).
  destruct (accepted_submission (self_data s0) m).
  - destruct H as (_ & _ & g & Hg & ->). rewrite Hd in *.
    eapply step_update; [exact Hg | constructor].
  - destruct H as [-> _]. rewrite Hd. constructor.
Qed.

(** X3.  A message touches the entry of its own guild only: under every
    other key the store is as before, and no guild that had an entry
    loses it. *)
Theorem other_guilds_untouched (m : Message) (s : Client) (k : string) :
  (k <> Py.str (guild_id m) ->
   self_data (on_message m s) !! k = self_data s !! k) /\
  (is_Some (self_data s !! k) -> is_Some (self_data (on_message m s) !! k)).
Proof.
  pose proof (on_message_step m s) as H.
  inversion H as [Hd|g g' Hg Hu Hd|Hd]; split; intros Hk; auto.
  - now rewrite lookup_insert_ne.
  - destruct (decide (Py.str (guild_id m) = k)) as [<-|Hne].
    + rewrite lookup_insert_eq. eauto.
    + now rewrite lookup_insert_ne.
  - now rewrite lookup_insert_ne.
  - destruct (decide (Py.str (guild_id m) = k)) as [<-|Hne].
    + rewrite lookup_insert_eq. eauto.
    + now rewrite lookup_insert_ne.
Qed.

Lemma guild_update_blockchain (m : Message) (g g' : Guild) :
  guild_update m g g' ->
  blockchain g' = blockchain g \/
  exists code, blockchain g' = Some code /\ code ∈ VALID_BLOCKCHAINS.
Proof. intros []; simpl; eauto. Qed.

Lemma guild_update_keys (m : Message) (g g' : Guild) :
  guild_update m g g' ->
  NoDup (map fst (data g)) -> NoDup (map fst (data g')).
Proof. intros []; simpl; auto. apply set_keys_unique. Qed.

Lemma insert_invariant (P : Guild -> Prop) (d : gmap string Guild)
    (k0 : string) (g' : Guild) :
  (forall k g, d !! k = Some g -> P g) -> P g' ->
  forall k g, <[k0 := g']> d !! k = Some g -> P g.
Proof.
  intros Hd Hg' k g. destruct (decide (k0 = k)) as [<-|Hne].
  - rewrite lookup_insert_eq. now intros [= <-].
  - rewrite lookup_insert_ne by exact Hne. apply Hd.
Qed.

(** X4.  The blockchain of a guild is never anything but unset or one of
    [VALID_BLOCKCHAINS]: if that holds of every guild of the store, it
    holds after [on_message] and after [on_guild_join]. *)
Theorem ledgers_stay_declared (s : Client) :
  ledgers_declared (self_data s) ->
  (forall m, ledgers_declared (self_data (on_message m s))) /\
  (forall gid name, ledgers_declared (self_data (on_guild_join gid name s))).
Proof.
  intros Hs. split.
  - intros m. pose proof (on_message_step m s) as H.
    inversion H as [Hd|g g' Hg Hu Hd|Hd]; [exact Hs| |].
    + unfold ledgers_declared. apply insert_invariant; [exact Hs|].
      destruct (guild_update_blockchain m g g' Hu) as [->|H']; eauto.
    + unfold ledgers_declared. apply insert_invariant; [exact Hs|now left].
  - intros gid name. unfold on_guild_join.
    destruct (self_data s !! Py.str gid); simpl; [exact Hs|].
    unfold ledgers_declared. apply insert_invariant; [exact Hs|now left].
Qed.

(** X5.  A member has at most one entry in a guild: if no guild's ['data']
    lists a key twice, none does after [on_message] or after
    [on_guild_join]. *)
Theorem members_stay_unique (s : Client) :
  members_unique (self_data s) ->
  (forall m, members_unique (self_data (on_message m s))) /\
  (forall gid name, members_unique (self_data (on_guild_join gid name s))).
Proof.
  intros Hs. split.
  - intros m. pose proof (on_message_step m s) as H.
    inversion H as [Hd|g g' Hg Hu Hd|Hd]; [exact Hs| |].
    + unfold members_unique. apply insert_invariant; [exact Hs|].
      eapply guild_update_keys; eauto.
    + unfold members_unique. apply insert_invariant; [exact Hs|].
      simpl. constructor.
  - intros gid name. unfold on_guild_join.
    destruct (self_data s !! Py.str gid); simpl; [exact Hs|].
    unfold members_unique. apply insert_invariant; [exact Hs|].
    simpl. constructor.
Qed.

Lemma accepted_submission_again (d : gmap string Guild) (m : Message)
    (g : Guild) :
  accepted_submission d m = true ->
  d !! Py.str (guild_id m) = Some g ->
  accepted_submission (<[Py.str (guild_id m) := recorded m g]> d) m = true.
Proof.
  open_accepted_submission. intros Ha Hg. rewrite Hg in Ha.
  now rewrite lookup_insert_eq.
Qed.

Lemma recorded_twice (m : Message) (g : Guild) :
  recorded m (recorded m g) = recorded m g.
Proof. unfold recorded, set_data_field. simpl. now rewrite set_twice. Qed.

(** X6.  Handling the same message a second time leaves the store as the
    first time left it: the three configuration commands, [>clear] and a
    resubmitted address are all idempotent on [self.data]. *)
Theorem on_message_twice (m : Message) (s : Client) :
  self_data (on_message m (on_message m s)) = self_data (on_message m s).
Proof.
  assert (self_data (on_message m s) = self_data s ->
          self_data (on_message m (on_message m s))
          = self_data (on_message m s)) as Hsame.
  { intros H. now apply on_message_store_driven. }
  destruct (bot (author m) || negb (is_member (author m))) eqn:Hb.
  { now rewrite !(on_message_not_member m _ Hb). }
  assert (bot (author m) = false /\ is_member (author m) = true) as [Hbot Hm].
  { destruct (bot (author m)), (is_member (author m)); auto; discriminate. }
  destruct (on_message_body m s) as [r s1] eqn:E.
  assert (on_message m s = match r with Ok _ => s1 | Raise e => log_fault e m s1 end)
    as Hom by (rewrite on_message_run, E; now destruct r).
  pose proof E as E'. rewrite (on_message_body_member m s Hb) in E'.
  destruct (admin_block m s) as [r0 s0] eqn:Ea.
  destruct r0 as [[]|e].
  - injection E' as <- <-. rewrite Hom.
    destruct (admin_block_again m s s0 Ea s0 eq_refl) as [Hr Hd].
    destruct (on_message_keeps validate_eth validate_sol format_exc
                str_message m s0) as (-> & _).
    rewrite (on_message_body_member m s0 Hb).
    destruct (admin_block m s0) as [r2 s2]. simpl in Hr, Hd. now subst r2.
  - destruct (admin_block_outcome m s _ s0 Ea) as (_ & Hd0 & _).
    destruct (after_admin_block_outcome validate_eth validate_sol str_message
                m s0 r s1 E') as (_ & _ & H).
    rewrite Hd0 in H.
    destruct (accepted_submission (self_data s) m) eqn:Hacc.
    + destruct H as (-> & _ & g & Hg & Hd1). rewrite Hom.
      destruct (on_message_keeps validate_eth validate_sol format_exc
                  str_message m s1) as (-> & _).
      destruct (on_message_body m s1) as [r2 s2] eqn:E2. cbn [snd].
      destruct (on_message_body_outcome validate_eth validate_sol str_message
                  m s1 r2 s2 E2) as (_ & _ & _ & H2).
      specialize (H2 Hbot Hm). rewrite Hd0 in Hg.
      rewrite Hd1, Hd0, (accepted_submission_again _ m g Hacc Hg) in H2.
      destruct H2 as (_ & _ & g' & Hg' & ->).
      rewrite Hd1, Hd0, lookup_insert_eq in Hg'. injection Hg' as <-.
      rewrite Hd1, Hd0, recorded_twice. apply insert_insert_eq.
    + apply Hsame. destruct H as [Hd1 _]. rewrite Hom.
      destruct r; simpl; congruence.
  - injection E' as <- <-. apply Hsame. rewrite Hom. simpl.
    now destruct (admin_block_outcome m s _ s0 Ea) as (_ & _ & Hd0 & _).
Qed.

(** ** Faults *)

(** Every blockchain [set_blockchain] accepts has a validator. *)
Lemma declared_has_validator (code : string) :
  code ∈ VALID_BLOCKCHAINS -> validators (Some code) <> None.
Proof.
  unfold VALID_BLOCKCHAINS. intros H.
  apply list_elem_of_In in H. simpl in H.
  destruct H as [<-|[<-|[]]]; discriminate.
Qed.

(** ** Commands that return *)

Lemma member_not_bot (m : Message) :
  bot (author m) = false -> is_member (author m) = true ->
  bot (author m) || negb (is_member (author m)) = false.
Proof. now intros -> ->. Qed.

(** An administrator's command whose handler returns: the store is
    written to data.json and [on_message] returns. *)
Lemma admin_command_returns (m : Message) (s s1 : Client)
    (command : string) (handler : Message -> M unit) :
  bot (author m) = false -> is_member (author m) = true ->
  administrator (author m) = true ->
  Py.startswith ">" (content m) = true ->
  first_command (content m) = Some command ->
  admin_commands command = Some handler ->
  handler m (printed (admin_line m) s) = (Ok tt, s1) ->
  on_message m s = backed_up s1.
Proof.
  intros Hb Hm Ha Hs Hc Hh E.
  rewrite on_message_run, (on_message_body_member m s (member_not_bot m Hb Hm)).
  rewrite (admin_block_run m s command handler) by (auto; now rewrite Ha, Hs).
  now rewrite E.
Qed.

Lemma admin_block_skips (m : Message) (s : Client) (command : string) :
  Py.startswith ">" (content m) = true ->
  first_command (content m) = Some command ->
  administrator (author m) = false \/ admin_commands command = None ->
  admin_block m s = (Ok false, past_admin_block m s).
Proof.
  intros Hs Hc H. unfold admin_block, past_admin_block.
  destruct (administrator (author m)); [|reflexivity].
  destruct H as [H|H]; [discriminate H|].
  rewrite Hs. cbn [andb]. rewrite bind_run. cbn [print modify].
  rewrite bind_run. unfold command_of. rewrite Hc. cbn [ret].
  now rewrite H.
Qed.

(** A public command whose handler returns. *)
Lemma public_command_returns (m : Message) (s s1 : Client)
    (command : string) (handler : Message -> M unit) :
  bot (author m) = false -> is_member (author m) = true ->
  Py.startswith ">" (content m) = true ->
  first_command (content m) = Some command ->
  administrator (author m) = false \/ admin_commands command = None ->
  public_commands command = Some handler ->
  handler m (printed (user_line m) (past_admin_block m s)) = (Ok tt, s1) ->
  on_message m s = s1.
Proof.
  intros Hb Hm Hs Hc Ha Hh E.
  rewrite on_message_run, (on_message_body_member m s (member_not_bot m Hb Hm)).
  rewrite (admin_block_skips m s command Hs Hc Ha).
  open_after_admin_block. rewrite bind_run.
  rewrite (public_block_run m _ command Hs Hc), Hh.
  now rewrite E.
Qed.

Lemma set_whitelist_channel_sets (m : Message) (s : Client) (c : Z)
    (g : Guild) :
  channel_mentions m = [c] -> regex_channel (content m) = true ->
  self_data s !! Py.str (guild_id m) = Some g ->
  set_whitelist_channel m s =
    (Ok tt,
     said (Text ("Successfully set whitelist channel to <#" ++ Py.str c
                 ++ ">") (Some true))
       (set_self_data
          (<[Py.str (guild_id m) := set_whitelist_channel_field c g]>
             (self_data s)) s)).
Proof.
  intros Hc Hr Hg. unfold set_whitelist_channel. rewrite Hc, Hr. simpl.
  now rewrite bind_run, update_guild_run, Hg.
Qed.

Lemma set_whitelist_role_sets (m : Message) (s : Client) (r : Z)
    (g : Guild) :
  role_mentions m = [r] -> regex_role (content m) = true ->
  self_data s !! Py.str (guild_id m) = Some g ->
  set_whitelist_role m s =
    (Ok tt,
     said (Text ("Successfully set whitelist role to <@&" ++ Py.str r
                 ++ ">") (Some true))
       (set_self_data
          (<[Py.str (guild_id m) := set_whitelist_role_field r g]>
             (self_data s)) s)).
Proof.
  intros Hc Hr Hg. unfold set_whitelist_role. rewrite Hc, Hr. simpl.
  now rewrite bind_run, update_guild_run, Hg.
Qed.

Lemma set_blockchain_sets (m : Message) (s : Client) (g : Guild) :
  Py.suffix 3 (content m) ∈ VALID_BLOCKCHAINS ->
  self_data s !! Py.str (guild_id m) = Some g ->
  set_blockchain m s =
    (Ok tt,
     said (Text ("Successfully set blockchain to " ++ Py.suffix 3 (content m))
             (Some true))
       (set_self_data
          (<[Py.str (guild_id m)
             := set_blockchain_field (Py.suffix 3 (content m)) g]>
             (self_data s)) s)).
Proof.
  intros Hv Hg. unfold set_blockchain.
  rewrite (bool_decide_eq_true_2 _ Hv).
  now rewrite bind_run, update_guild_run, Hg.
Qed.

Lemma get_data_sends (m : Message) (s : Client) (g : Guild) :
  self_data s !! Py.str (guild_id m) = Some g ->
  get_data m s =
    (Ok tt,
     said (File "Data for server is attached."
             (Py.str (guild_id m) ++ ".csv") (csv_of (data g))) s).
Proof.
  intros Hg. unfold get_data. now rewrite bind_run, get_guild_run, Hg.
Qed.

Lemma check_sends (m : Message) (s : Client) (g : Guild) :
  self_data s !! Py.str (guild_id m) = Some g ->
  check m s =
    (Ok tt,
     said (check_reply (Py.get (Py.str (author_id (author m))) (data g))) s).
Proof.
  intros Hg. unfold check, Py.mem. rewrite bind_run, get_guild_run, Hg.
  destruct (Py.get _ (data g)) eqn:Hk; [|reflexivity].
  now rewrite bind_run, get_guild_run, Hg, Hk.
Qed.


(** X9.  [>channel <#digits>] from an administrator, with exactly one
    channel mentioned, in a guild that has an entry: the guild's
    whitelist channel becomes the id of the mentioned channel, its role,
    blockchain and entries stay, the store is written to data.json and
    the one reply is the confirmation. *)
Theorem admin_sets_whitelist_channel (m : Message) (s : Client) (c : Z)
    (g : Guild) :
  bot (author m) = false -> is_member (author m) = true ->
  administrator (author m) = true ->
  channel_mentions m = [c] -> regex_channel (content m) = true ->
  self_data s !! Py.str (guild_id m) = Some g ->
  self_data (on_message m s)
  = <[Py.str (guild_id m)
      := {| whitelist_channel := Some c; whitelist_role := whitelist_role g;
            blockchain := blockchain g; data := data g |}]> (self_data s) /\
  data_json (on_message m s) = Some (self_data (on_message m s)) /\
  sent (on_message m s)
  = (sent s ++ [Text ("Successfully set whitelist channel to <#" ++ Py.str c
                      ++ ">") (Some true)])%list /\
  log_txt (on_message m s) = log_txt s.
Proof.
  intros Hb Hm Ha Hc Hr Hg.
  destruct (regex_channel_command _ Hr) as [Hs Hcmd].
  rewrite (admin_command_returns m s _ "channel" set_whitelist_channel
             Hb Hm Ha Hs Hcmd eq_refl
             (set_whitelist_channel_sets m (printed (admin_line m) s) c g
                Hc Hr Hg)).
  repeat split.
Qed.

(** X10.  [>role <@&digits>] from an administrator, with exactly one role
    mentioned, in a guild that has an entry: the guild's whitelist role
    becomes the id of the mentioned role, the rest of its record stays,
    the store is written to data.json and the one reply is the
    confirmation. *)
Theorem admin_sets_whitelist_role (m : Message) (s : Client) (r : Z)
    (g : Guild) :
  bot (author m) = false -> is_member (author m) = true ->
  administrator (author m) = true ->
  role_mentions m = [r] -> regex_role (content m) = true ->
  self_data s !! Py.str (guild_id m) = Some g ->
  self_data (on_message m s)
  = <[Py.str (guild_id m)
      := {| whitelist_channel := whitelist_channel g;
            whitelist_role := Some r;
            blockchain := blockchain g; data := data g |}]> (self_data s) /\
  data_json (on_message m s) = Some (self_data (on_message m s)) /\
  sent (on_message m s)
  = (sent s ++ [Text ("Successfully set whitelist role to <@&" ++ Py.str r
                      ++ ">") (Some true)])%list /\
  log_txt (on_message m s) = log_txt s.
Proof.
  intros Hb Hm Ha Hc Hr Hg.
  destruct (regex_role_command _ Hr) as [Hs Hcmd].
  rewrite (admin_command_returns m s _ "role" set_whitelist_role
             Hb Hm Ha Hs Hcmd eq_refl
             (set_whitelist_role_sets m (printed (admin_line m) s) r g
                Hc Hr Hg)).
  repeat split.
Qed.

(** X11.  [>blockchain ...] from an administrator in a guild that has an
    entry: whenever the last three characters of the text are a declared
    code, whatever stands between the command and them, the guild's
    blockchain becomes that code, the rest of its record stays, the
    store is written to data.json and the one reply is the
    confirmation. *)
Theorem admin_sets_blockchain (m : Message) (s : Client) (g : Guild) :
  bot (author m) = false -> is_member (author m) = true ->
  administrator (author m) = true ->
  Py.startswith ">" (content m) = true ->
  first_command (content m) = Some "blockchain" ->
  Py.suffix 3 (content m) ∈ VALID_BLOCKCHAINS ->
  self_data s !! Py.str (guild_id m) = Some g ->
  self_data (on_message m s)
  = <[Py.str (guild_id m)
      := {| whitelist_channel := whitelist_channel g;
            whitelist_role := whitelist_role g;
            blockchain := Some (Py.suffix 3 (content m));
            data := data g |}]> (self_data s) /\
  data_json (on_message m s) = Some (self_data (on_message m s)) /\
  sent (on_message m s)
  = (sent s ++ [Text ("Successfully set blockchain to "
                      ++ Py.suffix 3 (content m)) (Some true)])%list /\
  log_txt (on_message m s) = log_txt s.
Proof.
  intros Hb Hm Ha Hs Hcmd Hv Hg.
  rewrite (admin_command_returns m s _ "blockchain" set_blockchain
             Hb Hm Ha Hs Hcmd eq_refl
             (set_blockchain_sets m (printed (admin_line m) s) g Hv Hg)).
  repeat split.
Qed.


(** X13.  [>data] from an administrator in a guild that has an entry: the
    reply carries the file [<guild id>.csv] with the header and one row
    [key,value] per entry, in the order of the dict; the store is left as
    it is and written to data.json. *)
Theorem admin_exports_data (m : Message) (s : Client) (g : Guild) :
  bot (author m) = false -> is_member (author m) = true ->
  administrator (author m) = true ->
  Py.startswith ">" (content m) = true ->
  first_command (content m) = Some "data" ->
  self_data s !! Py.str (guild_id m) = Some g ->
  self_data (on_message m s) = self_data s /\
  data_json (on_message m s) = Some (self_data s) /\
  sent (on_message m s)
  = (sent s ++ [File "Data for server is attached."
                  (Py.str (guild_id m) ++ ".csv") (csv_of (data g))])%list /\
  log_txt (on_message m s) = log_txt s.
Proof.
  intros Hb Hm Ha Hs Hcmd Hg.
  rewrite (admin_command_returns m s _ "data" get_data
             Hb Hm Ha Hs Hcmd eq_refl
             (get_data_sends m (printed (admin_line m) s) g Hg)).
  repeat split.
Qed.


(** X15.  [>check] in a guild that has an entry reports the author's own
    entry: the one reply quotes the value stored under [str(author.id)],
    or says that there is none; nothing is changed. *)
Theorem check_reports_entry (m : Message) (s : Client) (g : Guild) :
  bot (author m) = false -> is_member (author m) = true ->
  Py.startswith ">" (content m) = true ->
  first_command (content m) = Some "check" ->
  self_data s !! Py.str (guild_id m) = Some g ->
  self_data (on_message m s) = self_data s /\
  data_json (on_message m s) = data_json s /\
  sent (on_message m s)
  = (sent s ++
     [match Py.get (Py.str (author_id (author m))) (data g) with
      | Some address =>
          Text ("You are whitelisted! Address: `" ++ address ++ "`") None
      | None =>
          Text
            "Your wallet is not yet on the whitelist. Use `>help` for more info!."
            None
      end])%list /\
  log_txt (on_message m s) = log_txt s.
Proof.
  intros Hb Hm Hs Hcmd Hg.
  assert (self_data (printed (user_line m) (past_admin_block m s))
          !! Py.str (guild_id m) = Some g) as Hg'.
  { unfold past_admin_block. now destruct (administrator (author m)). }
  rewrite (public_command_returns m s _ "check" check Hb Hm Hs Hcmd
             (or_intror eq_refl) eq_refl (check_sends m _ g Hg')).
  unfold past_admin_block.
  destruct (administrator (author m)); repeat split.
Qed.


(** ** Plain texts *)

Lemma whitelist_addition_run (m : Message) (s : Client) (g : Guild) :
  self_data s !! Py.str (guild_id m) = Some g ->
  whitelist_addition m s =
    if channel_is (channel_id m) (whitelist_channel g)
       && role_held (whitelist_role g) (roles (author m))
       && negb (Py.startswith ">" (content m))
    then
      match validators (blockchain g) with
      | None => (Raise (KeyError (blockchain g)), s)
      | Some validate =>
          if validate (content m) then
            (Ok tt,
             backed_up
               (said (Text ("Your wallet `" ++ content m
                            ++ "` has been validated and recorded.")
                        (Some true))
                  (set_self_data
                     (<[Py.str (guild_id m) := recorded m g]> (self_data s))
                     s)))
          else
            (Ok tt,
             said (Text ("The address `" ++ content m ++ "` is invalid.")
                     None) s)
      end
    else (Ok tt, s).
Proof.
  intros Hg. open_whitelist_addition.
  rewrite bind_run, whitelist_condition_run, Hg.
  destruct (channel_is _ _ && role_held _ _ && negb _); [|reflexivity].
  rewrite bind_run, get_guild_run, Hg.
  destruct (validators (blockchain g)) as [validate|]; [|reflexivity].
  destruct (validate (content m)); [|reflexivity].
  now rewrite bind_run, update_guild_run, Hg.
Qed.

(** X16.  Messages that are none of the router's business leave the
    client exactly as it was, with no reply, no line printed and nothing
    logged: every message of a bot or of an author that is not a guild
    member, and every text without the sigil sent, in a guild that has an
    entry, outside its whitelist channel or by an author without its
    whitelist role (also when either is unset). *)
Theorem plain_chat_is_ignored (m : Message) (s : Client) :
  (bot (author m) || negb (is_member (author m)) = true ->
   on_message m s = s) /\
  (forall g, Py.startswith ">" (content m) = false ->
   self_data s !! Py.str (guild_id m) = Some g ->
   channel_is (channel_id m) (whitelist_channel g)
   && role_held (whitelist_role g) (roles (author m)) = false ->
   on_message m s = s).
Proof.
  split; [apply on_message_not_member|].
  intros g Hs Hg Hc.
  destruct (bot (author m) || negb (is_member (author m))) eqn:Hb;
    [now apply on_message_not_member|].
  rewrite on_message_run, (on_message_body_member m s Hb).
  rewrite (admin_block_no_sigil m s Hs). open_after_admin_block.
  rewrite bind_run, (public_block_no_sigil m s Hs).
  now rewrite (whitelist_addition_run m s g Hg), Hc.
Qed.

Lemma submission_run (m : Message) (s : Client) (g : Guild)
    (validate : string -> bool) :
  bot (author m) = false -> is_member (author m) = true ->
  Py.startswith ">" (content m) = false ->
  self_data s !! Py.str (guild_id m) = Some g ->
  channel_is (channel_id m) (whitelist_channel g) = true ->
  role_held (whitelist_role g) (roles (author m)) = true ->
  validators (blockchain g) = Some validate ->
  on_message m s =
    if validate (content m) then
      backed_up
        (said (Text ("Your wallet `" ++ content m
                     ++ "` has been validated and recorded.") (Some true))
           (set_self_data
              (<[Py.str (guild_id m) := recorded m g]> (self_data s)) s))
    else
      said (Text ("The address `" ++ content m ++ "` is invalid.") None) s.
Proof.
  intros Hb Hm Hs Hg Hc Hr Hv.
  rewrite on_message_run,
    (on_message_body_member m s (member_not_bot m Hb Hm)).
  rewrite (admin_block_no_sigil m s Hs). open_after_admin_block.
  rewrite bind_run, (public_block_no_sigil m s Hs).
  rewrite (whitelist_addition_run m s g Hg), Hc, Hr, Hs, Hv. cbn [andb negb].
  now destruct (validate (content m)).
Qed.

(** X17.  A text without the sigil sent to the whitelist channel by a
    holder of the whitelist role, in a guild whose blockchain has a
    validator, gets exactly one reply.  When the validator accepts the
    text, it is stored under the author's key, confirmed and the store
    written to data.json; when it does not, the reply names the text as
    invalid and nothing else changes. *)
Theorem submission_is_answered (m : Message) (s : Client) (g : Guild)
    (validate : string -> bool) :
  bot (author m) = false -> is_member (author m) = true ->
  Py.startswith ">" (content m) = false ->
  self_data s !! Py.str (guild_id m) = Some g ->
  channel_is (channel_id m) (whitelist_channel g) = true ->
  role_held (whitelist_role g) (roles (author m)) = true ->
  validators (blockchain g) = Some validate ->
  on_message m s =
    if validate (content m) then
      backed_up
        (said (Text ("Your wallet `" ++ content m
                     ++ "` has been validated and recorded.") (Some true))
           (set_self_data
              (<[Py.str (guild_id m) := recorded m g]> (self_data s)) s))
    else
      said (Text ("The address `" ++ content m ++ "` is invalid.") None) s.
Proof. apply submission_run. Qed.

(** X18.  What a member submitted is what [>check] shows: after an
    accepted submission, [>check] from the same author in the same guild
    is answered with the text that was submitted. *)
Theorem submit_then_check (m m' : Message) (s : Client) :
  bot (author m) = false -> is_member (author m) = true ->
  accepted_submission (self_data s) m = true ->
  bot (author m') = false -> is_member (author m') = true ->
  guild_id m' = guild_id m ->
  author_id (author m') = author_id (author m) ->
  Py.startswith ">" (content m') = true ->
  first_command (content m') = Some "check" ->
  sent (on_message m' (on_message m s))
  = (sent (on_message m s)
     ++ [Text ("You are whitelisted! Address: `" ++ content m ++ "`")
           None])%list.
Proof.
  intros Hb Hm Ha Hb' Hm' Hgid Haid Hs' Hc'.
  assert (exists g, self_data (on_message m s) !! Py.str (guild_id m')
                    = Some (recorded m g)) as [g Hg].
  { destruct (on_message_keeps validate_eth validate_sol format_exc
                str_message m s) as (-> & _).
    destruct (on_message_body m s) as [r s1] eqn:E. cbn [snd].
    destruct (on_message_body_outcome validate_eth validate_sol str_message
                m s r s1 E) as (_ & _ & _ & H).
    specialize (H Hb Hm). rewrite Ha in H.
    destruct H as (_ & _ & g & _ & ->). exists g.
    rewrite Hgid. apply lookup_insert_eq. }
  set (s1 := on_message m s) in *.
  assert (self_data (printed (user_line m') (past_admin_block m' s1))
          !! Py.str (guild_id m') = Some (recorded m g)) as Hg'.
  { unfold past_admin_block. now destruct (administrator (author m')). }
  rewrite (public_command_returns m' s1 _ "check" check Hb' Hm' Hs' Hc'
             (or_intror eq_refl) eq_refl (check_sends m' _ _ Hg')).
  rewrite Haid. unfold recorded at 1. cbn [set_data_field data].
  rewrite get_set_eq. unfold past_admin_block.
  now destruct (administrator (author m')).
Qed.

(** X19.  A text with the sigil from an author who is no administrator
    changes neither the store nor data.json, whatever the command; when
    the command is not a public one (an administrator command included),
    the one reply is the listing of the public commands. *)
Theorem unprivileged_command_changes_nothing (m : Message) (s : Client) :
  administrator (author m) = false ->
  Py.startswith ">" (content m) = true ->
  self_data (on_message m s) = self_data s /\
  data_json (on_message m s) = data_json s /\
  (bot (author m) = false -> is_member (author m) = true ->
   forall command, first_command (content m) = Some command ->
   public_commands command = None ->
   sent (on_message m s) = (sent s ++ [listing_reply])%list).
Proof.
  intros Ha Hs.
  destruct (first_command_sigil _ Hs) as [command Hc].
  destruct (bot (author m) || negb (is_member (author m))) eqn:Hb.
  { rewrite (on_message_not_member m s Hb). repeat split.
    intros H1 H2. rewrite H1, H2 in Hb. discriminate Hb. }
  destruct (on_message_keeps validate_eth validate_sol format_exc
              str_message m s) as (-> & -> & ->).
  rewrite (on_message_body_member m s Hb).
  rewrite (admin_block_skips m s command Hs Hc (or_introl Ha)).
  unfold past_admin_block. rewrite Ha.
  destruct (after_admin_block m s) as [r s1] eqn:E. cbn [snd].
  pose proof (after_admin_block_outcome validate_eth validate_sol str_message
                m s r s1 E) as (_ & _ & H).
  destruct (accepted_submission (self_data s) m) eqn:Hacc.
  { apply accepted_submission_no_sigil in Hacc. congruence. }
  destruct H as [Hd Hj]. repeat split; auto.
  intros _ _ command' Hc' Hp. rewrite Hc in Hc'. injection Hc' as <-.
  open_after_admin_block. rewrite bind_run in E.
  rewrite (public_block_run m s command Hs Hc), Hp in E.
  open_whitelist_addition.
  rewrite bind_run, whitelist_condition_run in E.
  cbn [said snd reply modify self_data] in E.
  change (self_data (printed (user_line m) s)) with (self_data s) in E.
  destruct (self_data s !! Py.str (guild_id m)) as [g|].
  - rewrite Hs in E. cbn [negb] in E. rewrite andb_false_r in E.
    injection E as <- <-. reflexivity.
  - injection E as <- <-. reflexivity.
Qed.

Lemma get_config_sends (m : Message) (s : Client) (g : Guild) :
  self_data s !! Py.str (guild_id m) = Some g ->
  get_config m s =
    (Ok tt,
     said (Embed ("Config for " ++ guild_name m)
             ("Whitelist Channel: <#" ++ Py.fmt_opt_int (whitelist_channel g)
              ++ ">" ++ Py.nl ++ "Whitelist Role: <@&"
              ++ Py.fmt_opt_int (whitelist_role g) ++ ">" ++ Py.nl
              ++ "Blockchain: " ++ Py.fmt_opt_str (blockchain g))
             [] (Some true)) s).
Proof.
  intros Hg. unfold get_config.
  now rewrite bind_run, get_guild_run, Hg, bind_run, get_guild_run, Hg,
    bind_run, get_guild_run, Hg.
Qed.

(** X24.  [>config] from an administrator in a guild that has an entry:
    the one reply is the embed titled with the guild, whose description
    gives the three fields of the guild's record, an unset field reading
    [None]; the store is left as it is and written to data.json. *)
Theorem admin_shows_config (m : Message) (s : Client) (g : Guild) :
  bot (author m) = false -> is_member (author m) = true ->
  administrator (author m) = true ->
  Py.startswith ">" (content m) = true ->
  first_command (content m) = Some "config" ->
  self_data s !! Py.str (guild_id m) = Some g ->
  self_data (on_message m s) = self_data s /\
  data_json (on_message m s) = Some (self_data s) /\
  sent (on_message m s)
  = (sent s ++
     [Embed ("Config for " ++ guild_name m)
        ("Whitelist Channel: <#" ++ Py.fmt_opt_int (whitelist_channel g)
         ++ ">" ++ Py.nl ++ "Whitelist Role: <@&"
         ++ Py.fmt_opt_int (whitelist_role g) ++ ">" ++ Py.nl
         ++ "Blockchain: " ++ Py.fmt_opt_str (blockchain g))
        [] (Some true)])%list /\
  log_txt (on_message m s) = log_txt s.
Proof.
  intros Hb Hm Ha Hs Hcmd Hg.
  rewrite (admin_command_returns m s _ "config" get_config
             Hb Hm Ha Hs Hcmd eq_refl
             (get_config_sends m (printed (admin_line m) s) g Hg)).
  repeat split.
Qed.

(** ** From configuration to export *)

(** X21.  Configure, collect, export.  In a guild that has an entry, an
    administrator sets the channel, the role and the blockchain [eth]; a
    holder of the role then sends, in that channel, a text without the
    sigil that [validate_eth] accepts; [>data] from an administrator then
    returns the csv of the guild's earlier entries with the sender's row
    added or replaced - for a guild without earlier entries, the header
    and that one row.  data.json holds the whole store and nothing was
    logged. *)
Theorem configure_collect_export (m1 m2 m3 m4 m5 : Message) (s : Client)
    (g : Guild) (c r : Z) :
  (forall m, In m [m1; m2; m3; m4; m5] ->
     bot (author m) = false /\ is_member (author m) = true /\
     guild_id m = guild_id m1) ->
  (forall m, In m [m1; m2; m3; m5] -> administrator (author m) = true) ->
  channel_mentions m1 = [c] -> regex_channel (content m1) = true ->
  role_mentions m2 = [r] -> regex_role (content m2) = true ->
  content m3 = ">blockchain eth" ->
  channel_id m4 = c -> r ∈ roles (author m4) ->
  Py.startswith ">" (content m4) = false ->
  validate_eth (content m4) = true ->
  content m5 = ">data" ->
  self_data s !! Py.str (guild_id m1) = Some g ->
  let s5 :=
    on_message m5 (on_message m4 (on_message m3 (on_message m2
      (on_message m1 s)))) in
  last (sent s5)
  = Some (File "Data for server is attached."
            (Py.str (guild_id m1) ++ ".csv")
            (csv_of (Py.set (Py.str (author_id (author m4))) (content m4)
                       (data g)))) /\
  data_json s5 = Some (self_data s5) /\
  log_txt s5 = log_txt s.
Proof.
  intros Hall Hadm Hc1 Hr1 Hc2 Hr2 Ht3 Hch4 Hro4 Hs4 Hv4 Ht5 Hg.
  assert (forall m, In m [m1; m2; m3; m4; m5] -> bot (author m) = false)
    as Hbot by (intros m Hin; apply (Hall m Hin)).
  assert (forall m, In m [m1; m2; m3; m4; m5] -> is_member (author m) = true)
    as Hmem by (intros m Hin; apply (Hall m Hin)).
  assert (forall m, In m [m1; m2; m3; m4; m5] -> guild_id m = guild_id m1)
    as Hgid by (intros m Hin; apply (Hall m Hin)).
  set (k := Py.str (guild_id m1)) in *.
  (* >channel *)
  destruct (regex_channel_command _ Hr1) as [Hs1 Hcmd1].
  pose proof (admin_command_returns m1 s _ "channel" set_whitelist_channel
    (Hbot m1 ltac:(simpl; tauto)) (Hmem m1 ltac:(simpl; tauto))
    (Hadm m1 ltac:(simpl; tauto)) Hs1 Hcmd1 eq_refl
    (set_whitelist_channel_sets m1 (printed (admin_line m1) s) c g
       Hc1 Hr1 Hg)) as H1.
  set (s1 := on_message m1 s) in *.
  assert (self_data s1 !! k = Some (set_whitelist_channel_field c g)) as Hg1
    by (rewrite H1; apply lookup_insert_eq).
  assert (log_txt s1 = log_txt s) as Hl1 by (now rewrite H1).
  clearbody s1. clear H1.
  (* >role *)
  destruct (regex_role_command _ Hr2) as [Hs2 Hcmd2].
  assert (guild_id m2 = guild_id m1) as Hk2 by (apply Hgid; simpl; tauto).
  assert (self_data (printed (admin_line m2) s1) !! Py.str (guild_id m2)
          = Some (set_whitelist_channel_field c g)) as Hg1'
    by (rewrite Hk2; exact Hg1).
  pose proof (admin_command_returns m2 s1 _ "role" set_whitelist_role
    (Hbot m2 ltac:(simpl; tauto)) (Hmem m2 ltac:(simpl; tauto))
    (Hadm m2 ltac:(simpl; tauto)) Hs2 Hcmd2 eq_refl
    (set_whitelist_role_sets m2 (printed (admin_line m2) s1) r _
       Hc2 Hr2 Hg1')) as H2.
  rewrite Hk2 in H2. fold k in H2.
  set (s2 := on_message m2 s1) in *.
  assert (self_data s2 !! k
          = Some (set_whitelist_role_field r
                    (set_whitelist_channel_field c g))) as Hg2
    by (rewrite H2; apply lookup_insert_eq).
  assert (log_txt s2 = log_txt s) as Hl2 by (now rewrite H2).
  clearbody s2. clear H2 Hg1 Hg1' Hl1.
  (* >blockchain eth *)
  assert (guild_id m3 = guild_id m1) as Hk3 by (apply Hgid; simpl; tauto).
  assert (self_data (printed (admin_line m3) s2) !! Py.str (guild_id m3)
          = Some (set_whitelist_role_field r
                    (set_whitelist_channel_field c g))) as Hg2'
    by (rewrite Hk3; exact Hg2).
  assert (Py.suffix 3 (content m3) ∈ VALID_BLOCKCHAINS) as Hv3
    by (rewrite Ht3; constructor).
  pose proof (admin_command_returns m3 s2 _ "blockchain" set_blockchain
    (Hbot m3 ltac:(simpl; tauto)) (Hmem m3 ltac:(simpl; tauto))
    (Hadm m3 ltac:(simpl; tauto))
    ltac:(rewrite Ht3; reflexivity) ltac:(rewrite Ht3; reflexivity) eq_refl
    (set_blockchain_sets m3 (printed (admin_line m3) s2) _ Hv3 Hg2')) as H3.
  rewrite Hk3, Ht3 in H3. fold k in H3.
  change (Py.suffix 3 ">blockchain eth") with "eth" in H3.
  set (s3 := on_message m3 s2) in *.
  set (g3 := {| whitelist_channel := Some c; whitelist_role := Some r;
                blockchain := Some "eth"; data := data g |}).
  assert (self_data s3 !! k = Some g3) as Hg3
    by (rewrite H3; apply lookup_insert_eq).
  assert (log_txt s3 = log_txt s) as Hl3 by (now rewrite H3).
  clearbody s3. clear H3 Hg2 Hg2' Hl2.
  (* the submission *)
  assert (guild_id m4 = guild_id m1) as Hk4 by (apply Hgid; simpl; tauto).
  assert (self_data s3 !! Py.str (guild_id m4) = Some g3) as Hg3'
    by (rewrite Hk4; exact Hg3).
  pose proof (submission_run m4 s3 g3 validate_eth
    (Hbot m4 ltac:(simpl; tauto)) (Hmem m4 ltac:(simpl; tauto)) Hs4 Hg3'
    ltac:(simpl; unfold channel_is; apply bool_decide_eq_true; congruence)
    ltac:(simpl; now apply bool_decide_eq_true) eq_refl) as H4.
  rewrite Hv4, Hk4 in H4. fold k in H4.
  set (s4 := on_message m4 s3) in *.
  assert (self_data s4 !! k = Some (recorded m4 g3)) as Hg4
    by (rewrite H4; apply lookup_insert_eq).
  assert (log_txt s4 = log_txt s) as Hl4 by (now rewrite H4).
  clearbody s4. clear H4 Hg3 Hg3' Hl3.
  (* >data *)
  assert (guild_id m5 = guild_id m1) as Hk5 by (apply Hgid; simpl; tauto).
  assert (self_data (printed (admin_line m5) s4) !! Py.str (guild_id m5)
          = Some (recorded m4 g3)) as Hg4'
    by (rewrite Hk5; exact Hg4).
  pose proof (admin_command_returns m5 s4 _ "data" get_data
    (Hbot m5 ltac:(simpl; tauto)) (Hmem m5 ltac:(simpl; tauto))
    (Hadm m5 ltac:(simpl; tauto))
    ltac:(rewrite Ht5; reflexivity) ltac:(rewrite Ht5; reflexivity) eq_refl
    (get_data_sends m5 (printed (admin_line m5) s4) _ Hg4')) as H5.
  rewrite Hk5 in H5. fold k in H5.
  cbv zeta. rewrite H5. cbn [backed_up said printed snd backup_data reply
    print modify sent data_json self_data log_txt].
  split; [apply last_snoc|]. split; [reflexivity | exact Hl4].
Qed.

End RouterExtras.

(** ** Joining and start-up *)




(** X23.  Joining a guild again is harmless: when the guild has an entry,
    [on_guild_join] leaves the whole store, its entries included, as it
    was; in every case the other guilds, data.json and the replies are
    untouched, one record is appended to log.txt, and joining twice
    leaves the store as joining once. *)
Theorem on_guild_join_keeps_entries (gid : Z) (name : string) (s : Client) :
  (forall g, self_data s !! Py.str gid = Some g ->
     self_data (on_guild_join gid name s) = self_data s) /\
  (forall k, k <> Py.str gid ->
     self_data (on_guild_join gid name s) !! k = self_data s !! k) /\
  data_json (on_guild_join gid name s) = data_json s /\
  sent (on_guild_join gid name s) = sent s /\
  log_txt (on_guild_join gid name s)
  = log_txt (_log "New Guild" (Py.str gid ++ ", " ++ name) s) /\
  (forall name', self_data (on_guild_join gid name'
                              (on_guild_join gid name s))
                 = self_data (on_guild_join gid name s)).
Proof.
  unfold on_guild_join.
  destruct (self_data s !! Py.str gid) as [g|] eqn:Hg; simpl.
  - repeat split; auto. intros name'. now rewrite Hg.
  - repeat split; auto.
    + intros g. discriminate.
    + intros k Hk. now rewrite lookup_insert_ne.
    + intros name'. now rewrite lookup_insert_eq.
Qed.

(** ** Closed instances of the further properties *)

(** X2, witness: a client and the same client with one more record in
    log.txt. *)
Lemma store_alone_drives_on_message_witness :
  self_data (sample_on_message (message_of member_author "0xabc" 10 [])
               (client_of {[ "1" := guild_eth ]}))
  = self_data (sample_on_message (message_of member_author "0xabc" 10 [])
                 (_log "head" "text" (client_of {[ "1" := guild_eth ]}))).
Proof.
  eapply proj1.
  apply (store_alone_drives_on_message sample_validate_eth
           sample_validate_sol sample_format_exc sample_str_message).
  reflexivity.
Defined.

Lemma guild_eth_declared : ledgers_declared {[ "1" := guild_eth ]}.
Proof.
  intros k g Hk. apply lookup_singleton_Some in Hk as [_ <-].
  right. exists "eth". split; [reflexivity | constructor].
Qed.

Lemma guild_eth_unique : members_unique {[ "1" := guild_eth ]}.
Proof.
  intros k g Hk. apply lookup_singleton_Some in Hk as [_ <-].
  simpl. apply NoDup_singleton.
Qed.

(** X4, witness: the store of guild 1 with blockchain eth. *)
Lemma ledgers_stay_declared_witness :
  ledgers_declared
    (self_data (sample_on_message
                  (message_of admin_author ">blockchain sol" 5 [])
                  (client_of {[ "1" := guild_eth ]}))).
Proof.
  apply (ledgers_stay_declared sample_validate_eth sample_validate_sol
           sample_format_exc sample_str_message
           (client_of {[ "1" := guild_eth ]}) guild_eth_declared).
Defined.

(** X5, witness: member 9 submits again in guild 1. *)
Lemma members_stay_unique_witness :
  members_unique
    (self_data (sample_on_message
                  (message_of
                     {| author_id := 9; bot := false; is_member := true;
                        administrator := false; roles := [20] |}
                     "0x02" 10 [])
                  (client_of {[ "1" := guild_eth ]}))).
Proof.
  apply (members_stay_unique sample_validate_eth sample_validate_sol
           sample_format_exc sample_str_message
           (client_of {[ "1" := guild_eth ]}) guild_eth_unique).
Defined.

(** X9, witness: [>channel <#123>] with channel 123 mentioned. *)
Lemma admin_sets_whitelist_channel_witness :
  whitelist_channel <$>
    self_data (sample_on_message
                 (message_of admin_author ">channel <#123>" 5 [123])
                 (client_of {[ "1" := guild_eth ]})) !! "1"
  = Some (Some 123).
Proof.
  destruct (admin_sets_whitelist_channel sample_validate_eth
              sample_validate_sol sample_format_exc sample_str_message
              (message_of admin_author ">channel <#123>" 5 [123])
              (client_of {[ "1" := guild_eth ]}) 123 guild_eth)
    as (H & _); [try reflexivity..|].
  unfold sample_on_message. rewrite H. reflexivity.
Defined.

(** X10, witness: [>role <@&77>] with role 77 mentioned. *)
Lemma admin_sets_whitelist_role_witness :
  whitelist_role <$>
    self_data (sample_on_message
                 (role_message_of admin_author ">role <@&77>" [77])
                 (client_of {[ "1" := guild_eth ]})) !! "1"
  = Some (Some 77).
Proof.
  destruct (admin_sets_whitelist_role sample_validate_eth
              sample_validate_sol sample_format_exc sample_str_message
              (role_message_of admin_author ">role <@&77>" [77])
              (client_of {[ "1" := guild_eth ]}) 77 guild_eth)
    as (H & _); [try reflexivity..|].
  unfold sample_on_message. rewrite H. reflexivity.
Defined.

(** X11, witness: [>blockchain sol]. *)
Lemma admin_sets_blockchain_witness :
  blockchain <$>
    self_data (sample_on_message
                 (message_of admin_author ">blockchain sol" 5 [])
                 (client_of {[ "1" := guild_eth ]})) !! "1"
  = Some (Some "sol").
Proof.
  destruct (admin_sets_blockchain sample_validate_eth
              sample_validate_sol sample_format_exc sample_str_message
              (message_of admin_author ">blockchain sol" 5 [])
              (client_of {[ "1" := guild_eth ]}) guild_eth)
    as (H & _); [try reflexivity..|].
  { right. left. }
  unfold sample_on_message. rewrite H. reflexivity.
Defined.


(** X13, witness: the export of guild 1 has member 9's row. *)
Lemma admin_exports_data_witness :
  sent (sample_on_message (message_of admin_author ">data" 5 [])
          (client_of {[ "1" := guild_eth ]}))
  = [File "Data for server is attached." "1.csv"
       ("userId, walletAddress" ++ Py.nl ++ "9,0x01" ++ Py.nl)].
Proof.
  destruct (admin_exports_data sample_validate_eth
              sample_validate_sol sample_format_exc sample_str_message
              (message_of admin_author ">data" 5 [])
              (client_of {[ "1" := guild_eth ]}) guild_eth)
    as (_ & _ & H & _); [try reflexivity..|].
  unfold sample_on_message. rewrite H. reflexivity.
Defined.


(** X15, witness: member 8 has no entry in guild 1. *)
Lemma check_reports_entry_witness :
  sent (sample_on_message (message_of member_author ">check" 5 [])
          (client_of {[ "1" := guild_eth ]}))
  = [Text
       "Your wallet is not yet on the whitelist. Use `>help` for more info!."
       None].
Proof.
  destruct (check_reports_entry sample_validate_eth
              sample_validate_sol sample_format_exc sample_str_message
              (message_of member_author ">check" 5 [])
              (client_of {[ "1" := guild_eth ]}) guild_eth)
    as (_ & _ & H & _); [try reflexivity..|].
  unfold sample_on_message. rewrite H. reflexivity.
Defined.

(** X17, witness: an address the validator accepts. *)
Lemma submission_is_answered_witness :
  sent (sample_on_message (message_of member_author "0xabc" 10 [])
          (client_of {[ "1" := guild_eth ]}))
  = [Text "Your wallet `0xabc` has been validated and recorded."
       (Some true)].
Proof.
  unfold sample_on_message.
  rewrite (submission_is_answered sample_validate_eth
             sample_validate_sol sample_format_exc sample_str_message
             (message_of member_author "0xabc" 10 [])
             (client_of {[ "1" := guild_eth ]}) guild_eth
             sample_validate_eth) by reflexivity.
  reflexivity.
Defined.

(** X18, witness: member 8 submits, then asks. *)
Lemma submit_then_check_witness :
  last (sent (sample_on_message (message_of member_author ">check" 5 [])
                (sample_on_message (message_of member_author "0xabc" 10 [])
                   (client_of {[ "1" := guild_eth ]}))))
  = Some (Text "You are whitelisted! Address: `0xabc`" None).
Proof.
  unfold sample_on_message.
  rewrite (submit_then_check sample_validate_eth
             sample_validate_sol sample_format_exc sample_str_message
             (message_of member_author "0xabc" 10 [])
             (message_of member_author ">check" 5 [])
             (client_of {[ "1" := guild_eth ]})) by reflexivity.
  apply last_snoc.
Defined.

(** X19, witness: member 8 tries [>clear]. *)
Lemma unprivileged_command_changes_nothing_witness :
  self_data (sample_on_message (message_of member_author ">clear" 5 [])
               (client_of {[ "1" := guild_eth ]}))
  = {[ "1" := guild_eth ]}.
Proof.
  destruct (unprivileged_command_changes_nothing sample_validate_eth
              sample_validate_sol sample_format_exc sample_str_message
              (message_of member_author ">clear" 5 [])
              (client_of {[ "1" := guild_eth ]})) as (H & _);
    [reflexivity..|].
  exact H.
Defined.

(** X21, witness: guild 1 starts from the template; the administrator sets
    channel 10, role 20 and eth; member 8 submits; the export has one
    row. *)
Lemma configure_collect_export_witness :
  last (sent
    (sample_on_message (message_of admin_author ">data" 5 [])
    (sample_on_message (message_of member_author "0xabc" 10 [])
    (sample_on_message (message_of admin_author ">blockchain eth" 5 [])
    (sample_on_message (role_message_of admin_author ">role <@&20>" [20])
    (sample_on_message (message_of admin_author ">channel <#10>" 5 [10])
       (client_of {[ "1" := GUILD_TEMPLATE ]})))))))
  = Some (File "Data for server is attached." "1.csv"
            ("userId, walletAddress" ++ Py.nl ++ "8,0xabc" ++ Py.nl)).
Proof.
  assert (forall m : Message,
            In m [message_of admin_author ">channel <#10>" 5 [10];
                  role_message_of admin_author ">role <@&20>" [20];
                  message_of admin_author ">blockchain eth" 5 [];
                  message_of member_author "0xabc" 10 [];
                  message_of admin_author ">data" 5 []] ->
            bot (author m) = false /\ is_member (author m) = true /\
            guild_id m = 1) as Hall.
  { intros m Hin. simpl in Hin.
    repeat destruct Hin as [<-|Hin]; try contradiction; repeat split. }
  assert (forall m : Message,
            In m [message_of admin_author ">channel <#10>" 5 [10];
                  role_message_of admin_author ">role <@&20>" [20];
                  message_of admin_author ">blockchain eth" 5 [];
                  message_of admin_author ">data" 5 []] ->
            administrator (author m) = true) as Hadm.
  { intros m Hin. simpl in Hin.
    repeat destruct Hin as [<-|Hin]; try contradiction; reflexivity. }
  assert (20 ∈ roles member_author) as Hrole by (right; left).
  assert (self_data (client_of {[ "1" := GUILD_TEMPLATE ]}) !! Py.str 1
          = Some GUILD_TEMPLATE) as Hg by reflexivity.
  destruct (configure_collect_export sample_validate_eth
              sample_validate_sol sample_format_exc sample_str_message
              (message_of admin_author ">channel <#10>" 5 [10])
              (role_message_of admin_author ">role <@&20>" [20])
              (message_of admin_author ">blockchain eth" 5 [])
              (message_of member_author "0xabc" 10 [])
              (message_of admin_author ">data" 5 [])
              (client_of {[ "1" := GUILD_TEMPLATE ]}) GUILD_TEMPLATE 10 20
              Hall Hadm eq_refl eq_refl eq_refl eq_refl eq_refl eq_refl
              Hrole eq_refl eq_refl eq_refl Hg) as (H & _).
  exact H.
Defined.

(** X24, witness: the configuration of guild 1. *)
Lemma admin_shows_config_witness :
  sent (sample_on_message (message_of admin_author ">config" 5 [])
          (client_of {[ "1" := guild_eth ]}))
  = [Embed "Config for Guild"
       ("Whitelist Channel: <#10>" ++ Py.nl ++ "Whitelist Role: <@&20>"
        ++ Py.nl ++ "Blockchain: eth") [] (Some true)].
Proof.
  destruct (admin_shows_config sample_validate_eth
              sample_validate_sol sample_format_exc sample_str_message
              (message_of admin_author ">config" 5 [])
              (client_of {[ "1" := guild_eth ]}) guild_eth)
    as (_ & _ & H & _); [try reflexivity..|].
  unfold sample_on_message. rewrite H. reflexivity.
Defined.

(** * The router in a world that can fail *)

(** In the calm world the router is the one studied above. *)
Lemma calm_on_message (validate_eth validate_sol : string -> bool)
    (format_exc : exn -> string) (str_message : Message -> string)
    (m : Message) (s : Client) :
  IO.on_message calm validate_eth validate_sol format_exc str_message m s
  = on_message validate_eth validate_sol format_exc str_message m s.
Proof. reflexivity. Qed.

Lemma reply_in_world (w : World) (r : Reply) (s : Client) :
  IO.reply w r s =
    match reply_error w r s with
    | Some what => (Raise (Failure what), s)
    | None => (Ok tt, said r s)
    end.
Proof. unfold IO.reply. now destruct (reply_error w r s). Qed.

Lemma file_op_in_world (w : World) (name : string) (s : Client) :
  IO.file_op w name s =
    match file_error w name s with
    | Some what => (Raise (Failure what), s)
    | None => (Ok tt, s)
    end.
Proof. reflexivity. Qed.

Lemma backup_data_in_world (w : World) (s : Client) :
  IO.backup_data w s =
    match file_error w "data.json" s with
    | Some what =>
        (Raise (Failure what),
         {| self_data := self_data s; data_json := data_json_left w s;
            log_txt := log_txt s; sent := sent s; stdout := stdout s |})
    | None => (Ok tt, backed_up s)
    end.
Proof. unfold IO.backup_data. now destruct (file_error w "data.json" s). Qed.

Lemma reply_from_world (w : World) (r : Reply) (s : Client) (what : string) :
  reply_error w r s = Some what -> from_world w what.
Proof. intros H. left. eauto. Qed.

Lemma file_from_world (w : World) (name : string) (s : Client)
    (what : string) :
  file_error w name s = Some what -> from_world w what.
Proof. intros H. right. eauto. Qed.

(** Runs a handler by cases on what the world and the store answer. *)
Ltac run_in_world :=
  unfold handled, IO.set_whitelist_channel, IO.set_whitelist_role,
    IO.set_blockchain, IO.get_config, IO.get_data, IO.clear_data,
    IO.help_admin, IO.help, IO.check, IO.file_op, IO.reply,
    Py.mem, update_guild, get_guild, put_guild, reply, bind,
    raise, ret, modify;
  repeat case_match; simplify_eq/=;
  eauto using reply_from_world, file_from_world.

Lemma set_whitelist_channel_handled (w : World) (m : Message) (s : Client) :
  handled w m s (IO.set_whitelist_channel w m s).
Proof.
  destruct (channel_mentions m) as [|c [|c' l]] eqn:Hc;
    run_in_world; rewrite Hc in *; simplify_eq/=.
Qed.

Lemma set_whitelist_role_handled (w : World) (m : Message) (s : Client) :
  handled w m s (IO.set_whitelist_role w m s).
Proof.
  destruct (role_mentions m) as [|c [|c' l]] eqn:Hc;
    run_in_world; rewrite Hc in *; simplify_eq/=.
Qed.

Lemma set_blockchain_handled (w : World) (m : Message) (s : Client) :
  handled w m s (IO.set_blockchain w m s).
Proof. run_in_world. Qed.

Lemma get_config_handled (w : World) (m : Message) (s : Client) :
  handled w m s (IO.get_config w m s).
Proof. run_in_world. Qed.

(** One step of a handler in a world: the outcome of a file operation or
    of a reply, then the rest. *)
Lemma file_op_then {A} (w : World) (name : string) (k : M A) (s : Client) :
  (IO.file_op w name ;; k) s =
    match file_error w name s with
    | Some what => (Raise (Failure what), s)
    | None => k s
    end.
Proof.
  unfold bind, IO.file_op. now destruct (file_error w name s).
Qed.

(** Opens the next file operation or reply of a handler. *)
Ltac next_call w :=
  first
  [ rewrite file_op_then;
    match goal with
    | |- context [match file_error w ?name ?s with _ => _ end] =>
        let H := fresh "Hf" in
        destruct (file_error w name s) eqn:H;
        [simpl; eauto using file_from_world|]
    end
  | rewrite bind_run, reply_in_world;
    match goal with
    | |- context [match reply_error w ?r ?s with _ => _ end] =>
        let H := fresh "Hr" in
        destruct (reply_error w r s) eqn:H;
        [simpl; eauto using reply_from_world|]
    end ].

Lemma get_data_handled (w : World) (m : Message) (s : Client) :
  handled w m s (IO.get_data w m s).
Proof.
  unfold handled, IO.get_data. cbn zeta.
  next_call w. next_call w.
  rewrite bind_run, get_guild_run.
  destruct (self_data s !! Py.str (guild_id m)) as [g|] eqn:Hg;
    [|simpl; auto].
  next_call w. next_call w. next_call w.
  unfold IO.file_op.
  match goal with
  | |- context [match file_error w ?name ?s' with _ => _ end] =>
      destruct (file_error w name s') eqn:Hf3
  end; simpl; eauto using file_from_world.
Qed.

Lemma clear_data_handled (w : World) (m : Message) (s : Client) :
  handled w m s (IO.clear_data w m s).
Proof. run_in_world. Qed.

Lemma help_admin_handled (w : World) (m : Message) (s : Client) :
  handled w m s (IO.help_admin w m s).
Proof. run_in_world. Qed.

Lemma help_handled (w : World) (m : Message) (s : Client) :
  handled w m s (IO.help w m s) /\
  fst (IO.help w m s) <> Raise InvalidCommand /\
  self_data (snd (IO.help w m s)) = self_data s.
Proof.
  run_in_world; repeat split;
    eauto using reply_from_world, file_from_world; discriminate.
Qed.

Lemma check_handled (w : World) (m : Message) (s : Client) :
  handled w m s (IO.check w m s) /\
  fst (IO.check w m s) <> Raise InvalidCommand /\
  self_data (snd (IO.check w m s)) = self_data s.
Proof.
  run_in_world; repeat split;
    eauto using reply_from_world, file_from_world; discriminate.
Qed.

Lemma admin_commands_handled (w : World) (command : string)
    (handler : Message -> M unit) (m : Message) (s : Client) :
  IO.admin_commands w command = Some handler -> handled w m s (handler m s).
Proof.
  unfold IO.admin_commands. intros H.
  repeat case_match; simplify_eq;
    auto using set_whitelist_channel_handled, set_whitelist_role_handled,
      set_blockchain_handled, get_data_handled, get_config_handled,
      clear_data_handled, help_admin_handled.
Qed.

Lemma public_commands_handled (w : World) (command : string)
    (handler : Message -> M unit) (m : Message) (s : Client) :
  IO.public_commands w command = Some handler ->
  handled w m s (handler m s) /\
  fst (handler m s) <> Raise InvalidCommand /\
  self_data (snd (handler m s)) = self_data s.
Proof.
  unfold IO.public_commands. intros H.
  repeat case_match; simplify_eq; auto using help_handled, check_handled.
Qed.

(** ** The blocks of [on_message] *)

Lemma admin_block_in_world (w : World) (m : Message) (s s1 : Client)
    (r : result bool) :
  IO.admin_block w m s = (r, s1) ->
  log_txt s1 = log_txt s /\
  match r with
  | Ok true => data_json s1 = Some (self_data s1)
  | Ok false => self_data s1 = self_data s /\ data_json s1 = data_json s
  | Raise e => block_fault w m (self_data s) e
  end.
Proof.
  unfold IO.admin_block. intros E.
  destruct (administrator (author m) && Py.startswith ">" (content m))
    eqn:Ha; [|injection E as <- <-; auto].
  apply andb_true_iff in Ha as [_ Hs].
  destruct (first_command_sigil _ Hs) as [command Hc].
  rewrite bind_run in E. cbn [print modify] in E.
  rewrite bind_run in E. unfold command_of in E. rewrite Hc in E.
  cbn [ret] in E.
  destruct (IO.admin_commands w command) as [handler|] eqn:Hh;
    [|injection E as <- <-; auto].
  unfold try_except_InvalidCommand in E. rewrite bind_run in E.
  match type of E with context [handler m ?s0] =>
    pose proof (admin_commands_handled w command handler m s0 Hh) as F;
    destruct (handler m s0) as [r0 s2] eqn:Eh
  end.
  unfold handled in F. cbn [fst snd log_txt data_json self_data] in F.
  destruct F as (Fl & Fj & F).
  destruct r0 as [[]|[ |k| |what]].
  - rewrite bind_run, backup_data_in_world in E.
    destruct (file_error w "data.json" s2) eqn:Hf;
      injection E as <- <-; simpl; eauto using file_from_world.
  - subst s2. rewrite bind_run, reply_in_world in E.
    match type of E with context [reply_error w ?r ?s0] =>
      destruct (reply_error w r s0) eqn:Hf end;
      injection E as <- <-; simpl; eauto using reply_from_world.
  - destruct F as (-> & Hg & ->). injection E as <- <-. simpl. auto.
  - contradiction.
  - injection E as <- <-. simpl. auto.
Qed.

Lemma public_block_in_world (w : World) (m : Message) (s s1 : Client)
    (r : result bool) :
  IO.public_block w m s = (r, s1) ->
  log_txt s1 = log_txt s /\ data_json s1 = data_json s /\
  self_data s1 = self_data s /\
  match r with
  | Ok _ => True
  | Raise e => block_fault w m (self_data s) e
  end.
Proof.
  unfold IO.public_block. intros E.
  destruct (Py.startswith ">" (content m)) eqn:Hs;
    [|injection E as <- <-; auto].
  destruct (first_command_sigil _ Hs) as [command Hc].
  rewrite bind_run in E. cbn [print modify] in E.
  rewrite bind_run in E. unfold command_of in E. rewrite Hc in E.
  cbn [ret] in E.
  destruct (IO.public_commands w command) as [handler|] eqn:Hh.
  - unfold try_except_InvalidCommand in E. rewrite bind_run in E.
    match type of E with context [handler m ?s0] =>
      destruct (public_commands_handled w command handler m s0 Hh)
        as (F & Fr & Fd);
      destruct (handler m s0) as [r0 s2] eqn:Eh
    end.
    unfold handled in F. cbn [fst snd log_txt data_json self_data] in *.
    destruct F as (Fl & Fj & F).
    destruct r0 as [[]|[ |k| |what]]; try contradiction;
      try (injection E as <- <-; simpl; auto; fail).
    destruct F as (-> & Hg & ->). injection E as <- <-. simpl. auto.
  - rewrite bind_run, reply_in_world in E.
    match type of E with context [reply_error w ?r ?s0] =>
      destruct (reply_error w r s0) eqn:Hf end;
      injection E as <- <-; simpl; eauto 6 using reply_from_world.
Qed.

Lemma admin_block_no_sigil_in_world (w : World) (m : Message) (s : Client) :
  Py.startswith ">" (content m) = false ->
  IO.admin_block w m s = (Ok false, s).
Proof. intros H. unfold IO.admin_block. now rewrite H, andb_false_r. Qed.

Lemma public_block_no_sigil_in_world (w : World) (m : Message) (s : Client) :
  Py.startswith ">" (content m) = false ->
  IO.public_block w m s = (Ok false, s).
Proof. intros H. unfold IO.public_block. now rewrite H. Qed.

(** Lines 240-250, path by path. *)
Lemma whitelist_addition_in_world (w : World)
    (validate_eth validate_sol : string -> bool) (m : Message) (s : Client) :
  IO.whitelist_addition w validate_eth validate_sol m s =
    match self_data s !! Py.str (guild_id m) with
    | None => (Raise (KeyError (Some (Py.str (guild_id m)))), s)
    | Some g =>
        if channel_is (channel_id m) (whitelist_channel g)
           && role_held (whitelist_role g) (roles (author m))
           && negb (Py.startswith ">" (content m))
        then
          match validators validate_eth validate_sol (blockchain g) with
          | None => (Raise (KeyError (blockchain g)), s)
          | Some validate =>
              if validate (content m) then
                let s' :=
                  set_self_data
                    (<[Py.str (guild_id m) := recorded m g]> (self_data s)) s
                in
                match reply_error w (confirmation m) s' with
                | Some what => (Raise (Failure what), s')
                | None => IO.backup_data w (said (confirmation m) s')
                end
              else
                IO.reply w
                  (Text ("The address `" ++ content m ++ "` is invalid.")
                     None) s
          end
        else (Ok tt, s)
    end.
Proof.
  unfold IO.whitelist_addition.
  rewrite bind_run, whitelist_condition_run.
  destruct (self_data s !! Py.str (guild_id m)) as [g|] eqn:Hg; [|reflexivity].
  destruct (channel_is _ _ && role_held _ _ && negb _); [|reflexivity].
  rewrite bind_run, get_guild_run, Hg.
  destruct (validators validate_eth validate_sol (blockchain g))
    as [validate|]; [|reflexivity].
  destruct (validate (content m)); [|reflexivity].
  rewrite bind_run, update_guild_run, Hg, bind_run, reply_in_world.
  cbn zeta. fold (confirmation m).
  now destruct (reply_error w (confirmation m) _).
Qed.

Lemma whitelist_addition_outcome_in_world (w : World)
    (validate_eth validate_sol : string -> bool) (m : Message)
    (s s1 : Client) (r : result unit) :
  IO.whitelist_addition w validate_eth validate_sol m s = (r, s1) ->
  log_txt s1 = log_txt s /\
  match r with
  | Ok _ =>
      if accepted_submission validate_eth validate_sol (self_data s) m
      then submission_recorded m s r s1
      else self_data s1 = self_data s /\ data_json s1 = data_json s
  | Raise e => fault_in w validate_eth validate_sol m (self_data s) e
  end.
Proof.
  rewrite whitelist_addition_in_world. unfold accepted_submission, fault_in.
  intros E.
  destruct (self_data s !! Py.str (guild_id m)) as [g|] eqn:Hg;
    [|injection E as <- <-; split; [reflexivity|]; left; now left].
  destruct (channel_is _ _) eqn:Hc;
    [|injection E as <- <-; simpl; auto].
  destruct (role_held _ _) eqn:Hr;
    [|injection E as <- <-; simpl; auto].
  destruct (Py.startswith ">" (content m)) eqn:Hs;
    [injection E as <- <-; simpl; auto|].
  cbn [andb negb] in *.
  destruct (validators validate_eth validate_sol (blockchain g))
    as [validate|] eqn:Hv.
  - destruct (validate (content m)) eqn:Hok.
    + cbn zeta in E.
      destruct (reply_error w (confirmation m) _) as [what|] eqn:Hf.
      * injection E as <- <-. split; [reflexivity|].
        right. eauto using reply_from_world.
      * rewrite backup_data_in_world in E.
        destruct (file_error w "data.json" _) as [what|] eqn:Hw;
          injection E as <- <-; (split; [reflexivity|]).
        -- right. eauto using file_from_world.
        -- unfold submission_recorded. repeat split. eauto.
    + rewrite reply_in_world in E.
      destruct (reply_error w _ s) as [what|] eqn:Hf;
        injection E as <- <-; (split; [reflexivity|]); simpl; auto.
      right. eauto using reply_from_world.
  - injection E as <- <-. split; [reflexivity|].
    left. right. exists g. auto 10.
Qed.

Lemma block_fault_is_fault (w : World)
    (validate_eth validate_sol : string -> bool) (m : Message)
    (d : gmap string Guild) (e : exn) :
  block_fault w m d e -> fault_in w validate_eth validate_sol m d e.
Proof.
  unfold fault_in. destruct e as [ |k| |what]; simpl; try contradiction.
  - intros [Hg ->]. left. now left.
  - intros H. right. eauto.
Qed.

Lemma fault_in_not_invalid (w : World)
    (validate_eth validate_sol : string -> bool) (m : Message)
    (d : gmap string Guild) (e : exn) :
  fault_in w validate_eth validate_sol m d e ->
  e <> InvalidCommand /\ e <> IndexError.
Proof.
  intros [[[_ ->]|(g & _ & _ & _ & _ & _ & ->)]|(what & -> & _)];
    split; discriminate.
Qed.

(** The body of the [try]: what it returns with, and what it raises. *)
Lemma on_message_body_in_world (w : World)
    (validate_eth validate_sol : string -> bool) (m : Message)
    (s s1 : Client) (r : result unit) :
  IO.on_message_body w validate_eth validate_sol m s = (r, s1) ->
  log_txt s1 = log_txt s /\
  match r with
  | Ok _ =>
      (data_json s1 = Some (self_data s1) \/
       self_data s1 = self_data s /\ data_json s1 = data_json s) /\
      (bot (author m) = false -> is_member (author m) = true ->
       accepted_submission validate_eth validate_sol (self_data s) m = true ->
       submission_recorded m s r s1)
  | Raise e => fault_in w validate_eth validate_sol m (self_data s) e
  end.
Proof.
  unfold IO.on_message_body. intros E.
  destruct (bot (author m) || negb (is_member (author m))) eqn:Hb.
  { injection E as <- <-. split; [reflexivity|]. split; [auto|].
    intros H1 H2. rewrite H1, H2 in Hb. discriminate Hb. }
  rewrite bind_run in E.
  destruct (IO.admin_block w m s) as [r0 s0] eqn:Ea.
  pose proof (admin_block_in_world w m s s0 r0 Ea) as [Al A].
  assert (forall r0' s0', IO.admin_block w m s = (r0', s0') ->
          accepted_submission validate_eth validate_sol (self_data s) m = true
          -> r0' = Ok false /\ s0' = s) as Hacc.
  { intros r0' s0' E0 Ha.
    apply accepted_submission_no_sigil in Ha.
    rewrite (admin_block_no_sigil_in_world w m s Ha) in E0.
    now injection E0 as <- <-. }
  destruct r0 as [[]|e0].
  - injection E as <- <-. split; [exact Al|]. split; [auto|].
    intros _ _ Ha. destruct (Hacc _ _ Ea Ha) as [H _]. discriminate H.
  - destruct A as [Ad Aj]. unfold IO.after_admin_block in E.
    rewrite bind_run in E.
    destruct (IO.public_block w m s0) as [r1 s2] eqn:Ep.
    pose proof (public_block_in_world w m s0 s2 r1 Ep) as (Pl & Pj & Pd & P).
    destruct r1 as [[]|e1].
    + injection E as <- <-. split; [congruence|]. split.
      * right. split; congruence.
      * intros _ _ Ha. destruct (Hacc _ _ Ea Ha) as [_ ->].
        apply accepted_submission_no_sigil in Ha.
        rewrite (public_block_no_sigil_in_world w m s Ha) in Ep.
        discriminate Ep.
    + pose proof (whitelist_addition_outcome_in_world w validate_eth
                    validate_sol m s2 s1 r E) as [Wl W].
      split; [congruence|].
      rewrite Pd, Ad in W.
      destruct r as [[]|e]; [|exact W]. split.
      * destruct (accepted_submission _ _ _ m).
        -- left. apply W.
        -- right. destruct W. split; congruence.
      * intros _ _ Ha. destruct (Hacc _ _ Ea Ha) as [_ ->].
        apply accepted_submission_no_sigil in Ha as Hs.
        rewrite (public_block_no_sigil_in_world w m s Hs) in Ep.
        injection Ep as <-. rewrite Ha in W. exact W.
    + injection E as <- <-. split; [congruence|].
      rewrite Ad in P. now apply block_fault_is_fault.
  - injection E as <- <-. split; [exact Al|].
    now apply block_fault_is_fault.
Qed.

Lemma on_message_in_world (w : World)
    (validate_eth validate_sol : string -> bool)
    (format_exc : exn -> string) (str_message : Message -> string)
    (m : Message) (s : Client) :
  IO.on_message w validate_eth validate_sol format_exc str_message m s =
    match IO.on_message_body w validate_eth validate_sol m s with
    | (Ok _, s1) => s1
    | (Raise e, s1) => log_fault format_exc str_message e m s1
    end.
Proof. reflexivity. Qed.

(** ** Persistence *)

(** An accepted submission whose confirmation the world refuses: the
    address is in the store, [backup_data] is not reached, and the
    exception of the reply is what [on_message] logs. *)
Lemma refused_confirmation_run (w : World)
    (validate_eth validate_sol : string -> bool)
    (format_exc : exn -> string) (str_message : Message -> string)
    (m : Message) (s : Client) (g : Guild) (what : string) :
  bot (author m) = false -> is_member (author m) = true ->
  accepted_submission validate_eth validate_sol (self_data s) m = true ->
  self_data s !! Py.str (guild_id m) = Some g ->
  reply_error w (confirmation m)
    (set_self_data (<[Py.str (guild_id m) := recorded m g]> (self_data s)) s)
  = Some what ->
  IO.on_message w validate_eth validate_sol format_exc str_message m s
  = log_fault format_exc str_message (Failure what) m
      (set_self_data (<[Py.str (guild_id m) := recorded m g]> (self_data s))
         s).
Proof.
  intros Hb Hm Ha Hg Hw.
  pose proof (accepted_submission_no_sigil _ _ _ _ Ha) as Hs.
  rewrite on_message_in_world. unfold IO.on_message_body.
  rewrite Hb, Hm. cbn [orb negb].
  rewrite bind_run, (admin_block_no_sigil_in_world w m s Hs).
  unfold IO.after_admin_block.
  rewrite bind_run, (public_block_no_sigil_in_world w m s Hs).
  rewrite whitelist_addition_in_world, Hg.
  unfold accepted_submission in Ha. rewrite Hg in Ha.
  destruct (channel_is _ _ && role_held _ _ && negb _); [|discriminate Ha].
  cbn [andb] in Ha.
  destruct (validators validate_eth validate_sol (blockchain g))
    as [validate|]; [|discriminate Ha].
  rewrite Ha. cbn zeta. now rewrite Hw.
Qed.

(** C7, as amended.  In every world, when the handling of a message
    completes, that is when the body of the [try] of [on_message] returns
    without an exception, [on_message] ends in the state the body left and
    data.json holds the whole store of that state: whenever the message
    has changed the store, after every accepted submission (whose entry
    the store then has), and after every administrator command whose
    handler returned. *)
Theorem completed_mutation_is_persisted (w : World)
    (validate_eth validate_sol : string -> bool)
    (format_exc : exn -> string) (str_message : Message -> string)
    (m : Message) (s s1 : Client) :
  IO.on_message_body w validate_eth validate_sol m s = (Ok tt, s1) ->
  IO.on_message w validate_eth validate_sol format_exc str_message m s = s1 /\
  (self_data s1 <> self_data s -> data_json s1 = Some (self_data s1)) /\
  (bot (author m) = false -> is_member (author m) = true ->
   accepted_submission validate_eth validate_sol (self_data s) m = true ->
   data_json s1 = Some (self_data s1) /\
   exists g, self_data s !! Py.str (guild_id m) = Some g /\
     self_data s1 = <[Py.str (guild_id m) := recorded m g]> (self_data s)) /\
  (bot (author m) = false -> is_member (author m) = true ->
   forall s0, IO.admin_block w m s = (Ok true, s0) ->
   s1 = s0 /\ data_json s1 = Some (self_data s1)).
Proof.
  intros E.
  destruct (on_message_body_in_world w validate_eth validate_sol m s s1 _ E)
    as (_ & Hp & Ha).
  split; [|split; [|split]].
  - now rewrite on_message_in_world, E.
  - intros Hne. destruct Hp as [H|[H _]]; [exact H|contradiction].
  - intros Hb Hm Hacc. destruct (Ha Hb Hm Hacc) as (_ & Hj & Hg). auto.
  - intros Hb Hm s0 Ea. unfold IO.on_message_body in E.
    rewrite Hb, Hm in E. cbn [orb negb] in E. rewrite bind_run, Ea in E.
    injection E as <-. split; [reflexivity|].
    now destruct (admin_block_in_world w m s s0 _ Ea) as (_ & H).
Qed.

(** ** Faults *)


(** X7.  What leaves the body of the [try] of [on_message], in every
    world, is one of three exceptions: the [KeyError] of a guild without
    an entry, the [KeyError] of a submission for which [self.validators]
    has no key, or an exception that [message.reply] or a file operation
    raised.  [split()[0]], [channels[0]] and [roles[0]] are never out of
    range, and [InvalidCommand] never leaves the body. *)
Theorem faults_in_world (w : World)
    (validate_eth validate_sol : string -> bool) (m : Message)
    (s s1 : Client) (e : exn) :
  IO.on_message_body w validate_eth validate_sol m s = (Raise e, s1) ->
  (fault_of validate_eth validate_sol m (self_data s) e \/
   exists what, e = Failure what /\ from_world w what) /\
  e <> InvalidCommand /\ e <> IndexError.
Proof.
  intros E.
  pose proof (on_message_body_in_world w validate_eth validate_sol m s s1 _ E)
    as (_ & H).
  split; [exact H|]. now apply fault_in_not_invalid in H.
Qed.

(** X8.  In a guild that has an entry whose blockchain is one of
    [VALID_BLOCKCHAINS] the code raises no exception of its own: what
    leaves the body of the [try] is an exception of [message.reply] or of
    a file operation, and in a world where neither raises the body returns
    and log.txt is left as it was. *)
Theorem configured_guild_faults_from_world (w : World)
    (validate_eth validate_sol : string -> bool)
    (format_exc : exn -> string) (str_message : Message -> string)
    (m : Message) (s : Client) (g : Guild) (code : string) :
  self_data s !! Py.str (guild_id m) = Some g ->
  blockchain g = Some code -> code ∈ VALID_BLOCKCHAINS ->
  (forall e s1,
     IO.on_message_body w validate_eth validate_sol m s = (Raise e, s1) ->
     exists what, e = Failure what /\ from_world w what) /\
  ((forall what, ~ from_world w what) ->
   fst (IO.on_message_body w validate_eth validate_sol m s) = Ok tt /\
   log_txt (IO.on_message w validate_eth validate_sol format_exc str_message
              m s) = log_txt s).
Proof.
  intros Hg Hb Hc.
  assert (forall e s1,
     IO.on_message_body w validate_eth validate_sol m s = (Raise e, s1) ->
     exists what, e = Failure what /\ from_world w what) as Hf.
  { intros e s1 E.
    destruct (on_message_body_in_world w validate_eth validate_sol m s s1 _ E)
      as (_ & [[[Hn _]|(g' & Hg' & _ & _ & _ & Hv & _)]|H]); [| |exact H].
    - congruence.
    - rewrite Hg in Hg'. injection Hg' as <-. rewrite Hb in Hv.
      now apply declared_has_validator in Hv. }
  split; [exact Hf|]. intros Hcalm. rewrite on_message_in_world.
  destruct (IO.on_message_body w validate_eth validate_sol m s)
    as [r s1] eqn:E.
  destruct r as [[]|e].
  - split; [reflexivity|].
    now destruct (on_message_body_in_world w validate_eth validate_sol
                    m s s1 _ E) as (Hl & _).
  - destruct (Hf e s1 eq_refl) as (what & _ & H). now apply Hcalm in H.
Qed.

(** X20.  data.json follows the store through a message whose handling
    completes, and not through [on_guild_join]: if it holds the whole
    store before a message and the body of the [try] returns without an
    exception, it holds the whole store after [on_message]; and when a
    guild without an entry joins, the store gets the entry and data.json
    does not. *)
Theorem snapshot_follows_completed_messages (w : World)
    (validate_eth validate_sol : string -> bool)
    (format_exc : exn -> string) (str_message : Message -> string)
    (s : Client) :
  data_json s = Some (self_data s) ->
  (forall m s1,
     IO.on_message_body w validate_eth validate_sol m s = (Ok tt, s1) ->
     data_json (IO.on_message w validate_eth validate_sol format_exc
                  str_message m s)
     = Some (self_data (IO.on_message w validate_eth validate_sol format_exc
                          str_message m s)))
  /\
  (forall gid name, self_data s !! Py.str gid = None ->
   data_json (on_guild_join gid name s) = Some (self_data s) /\
   self_data (on_guild_join gid name s) <> self_data s).
Proof.
  intros Hsync. split.
  - intros m s1 E. rewrite on_message_in_world, E.
    destruct (on_message_body_in_world w validate_eth validate_sol m s s1 _ E)
      as (_ & [H|[Hd Hj]] & _); congruence.
  - intros gid name Hg. unfold on_guild_join. rewrite Hg. simpl.
    split; [exact Hsync|]. intros H.
    apply (f_equal (fun d => d !! Py.str gid)) in H.
    rewrite lookup_insert_eq, Hg in H. discriminate H.
Qed.

(** ** Closed instances in a world *)

Lemma calm_never_fails (what : string) : ~ from_world calm what.
Proof. intros [(r & s & H)|(name & s & H)]; discriminate H. Qed.

(** C7, counterexample.  Guild 1 is configured and data.json holds the
    store.  Member 8 sends an address the validator accepts, in a world
    that refuses the confirmation: the address is in the store, data.json
    still holds the store of before and so differs from the store, and
    the exception is in log.txt.  The same happens to the whitelist
    channel when the confirmation of [>channel <#123>] is refused. *)
Lemma refused_confirmation_leaves_snapshot_stale :
  (entries
     (self_data
        (sample_on_message_in refusing_confirmations
           (message_of member_author "0xabc" 10 [])
           (saved_client_of {[ "1" := guild_eth ]}))) "1"
   = Some [("9", "0x01"); ("8", "0xabc")] /\
   data_json
     (sample_on_message_in refusing_confirmations
        (message_of member_author "0xabc" 10 [])
        (saved_client_of {[ "1" := guild_eth ]}))
   = Some {[ "1" := guild_eth ]} /\
   data_json
     (sample_on_message_in refusing_confirmations
        (message_of member_author "0xabc" 10 [])
        (saved_client_of {[ "1" := guild_eth ]}))
   <> Some (self_data
              (sample_on_message_in refusing_confirmations
                 (message_of member_author "0xabc" 10 [])
                 (saved_client_of {[ "1" := guild_eth ]}))) /\
   log_txt
     (sample_on_message_in refusing_confirmations
        (message_of member_author "0xabc" 10 [])
        (saved_client_of {[ "1" := guild_eth ]}))
   = [ "Head: Traceback (most recent call last):---Failure: 403 Forbidden---"
       ++ Py.nl ++ "   Text: <Message channel=10>" ++ Py.nl
       ++ "Content:   0xabc" ++ Py.nl ++ Py.nl ]) /\
  (whitelist_channel <$>
     self_data
       (sample_on_message_in refusing_confirmations
          (message_of admin_author ">channel <#123>" 5 [123])
          (saved_client_of {[ "1" := guild_eth ]})) !! "1"
   = Some (Some 123) /\
   data_json
     (sample_on_message_in refusing_confirmations
        (message_of admin_author ">channel <#123>" 5 [123])
        (saved_client_of {[ "1" := guild_eth ]}))
   = Some {[ "1" := guild_eth ]} /\
   data_json
     (sample_on_message_in refusing_confirmations
        (message_of admin_author ">channel <#123>" 5 [123])
        (saved_client_of {[ "1" := guild_eth ]}))
   <> Some (self_data
              (sample_on_message_in refusing_confirmations
                 (message_of admin_author ">channel <#123>" 5 [123])
                 (saved_client_of {[ "1" := guild_eth ]})))).
Proof.
  repeat split; try (vm_compute; reflexivity).
  - intros H. apply (f_equal (fun o => d ← o; entries d "1")) in H.
    vm_compute in H. discriminate H.
  - intros H.
    apply (f_equal (fun o => d ← o; whitelist_channel <$> d !! "1")) in H.
    vm_compute in H. discriminate H.
Qed.

(** C7, witness: in the calm world the same submission is handled to the
    end, and data.json holds the store with the address. *)
Lemma completed_mutation_is_persisted_witness :
  data_json
    (sample_on_message_in calm (message_of member_author "0xabc" 10 [])
       (saved_client_of {[ "1" := guild_eth ]}))
  = Some (self_data
            (sample_on_message_in calm
               (message_of member_author "0xabc" 10 [])
               (saved_client_of {[ "1" := guild_eth ]}))).
Proof.
  destruct (completed_mutation_is_persisted calm sample_validate_eth
              sample_validate_sol sample_format_exc sample_str_message
              (message_of member_author "0xabc" 10 [])
              (saved_client_of {[ "1" := guild_eth ]})
              (snd (sample_body_in calm
                      (message_of member_author "0xabc" 10 [])
                      (saved_client_of {[ "1" := guild_eth ]}))))
    as (H1 & _ & H3 & _); [vm_compute; reflexivity|].
  unfold sample_on_message_in. rewrite H1.
  destruct H3 as [H _]; [reflexivity..|]. exact H.
Defined.


(** X7, witness: what leaves the body when the confirmation is refused
    is the exception of the reply. *)
Lemma faults_in_world_witness :
  fst (sample_body_in refusing_confirmations
         (message_of member_author "0xabc" 10 [])
         (client_of {[ "1" := guild_eth ]}))
  = Raise (Failure "403 Forbidden") /\
  from_world refusing_confirmations "403 Forbidden".
Proof.
  split; [vm_compute; reflexivity|].
  destruct (faults_in_world refusing_confirmations sample_validate_eth
              sample_validate_sol (message_of member_author "0xabc" 10 [])
              (client_of {[ "1" := guild_eth ]})
              (snd (sample_body_in refusing_confirmations
                      (message_of member_author "0xabc" 10 [])
                      (client_of {[ "1" := guild_eth ]})))
              (Failure "403 Forbidden"))
    as ([[[_ H]|(g & _ & _ & _ & _ & _ & H)]|(what & Hw & H)] & _);
    [vm_compute; reflexivity|discriminate H|discriminate H|].
  injection Hw as <-. exact H.
Defined.

(** X8, witness: in the calm world the submission in guild 1 leaves
    log.txt empty. *)
Lemma configured_guild_faults_from_world_witness :
  log_txt (sample_on_message_in calm (message_of member_author "0xabc" 10 [])
             (client_of {[ "1" := guild_eth ]})) = [].
Proof.
  destruct (configured_guild_faults_from_world calm sample_validate_eth
              sample_validate_sol sample_format_exc sample_str_message
              (message_of member_author "0xabc" 10 [])
              (client_of {[ "1" := guild_eth ]}) guild_eth "eth")
    as (_ & H); [reflexivity | reflexivity | constructor |].
  destruct (H calm_never_fails) as [_ Hl]. exact Hl.
Defined.

(** X20, witness: [>clear] from the administrator, in the calm world, on
    a client whose data.json holds its store of guild 1. *)
Lemma snapshot_follows_completed_messages_witness :
  data_json (sample_on_message_in calm (message_of admin_author ">clear" 5 [])
               (saved_client_of {[ "1" := guild_eth ]}))
  = Some (self_data
            (sample_on_message_in calm (message_of admin_author ">clear" 5 [])
               (saved_client_of {[ "1" := guild_eth ]}))).
Proof.
  destruct (snapshot_follows_completed_messages calm sample_validate_eth
              sample_validate_sol sample_format_exc sample_str_message
              (saved_client_of {[ "1" := guild_eth ]})) as [H _];
    [reflexivity|].
  apply (H (message_of admin_author ">clear" 5 [])
           (snd (sample_body_in calm (message_of admin_author ">clear" 5 [])
                   (saved_client_of {[ "1" := guild_eth ]})))).
  vm_compute. reflexivity.
Defined.
